(** * BibTeX Google Scholar checker: a shallow embedding of
    [src/bibtex_scholar_checker.py] and the properties of its query builder,
    response classifier, batch runner and report writer.

    Conventions of the embedding.
    - A Python [str] is a [string]; a character is a code point of the
      range U+0000..U+00FF (one [ascii] each), and the character classes of
      the interpreter ([str.isspace], [str.isalnum], the regex classes [\w]
      and [\s]) are the ones CPython has on that range.
    - A Python [int] is a [Z]; [len] of a list is [Z.of_nat (length _)].
    - A BibTeX entry is a [gmap string string], as [bibtexparser] yields it.
    - What is printed is a [text], a list of code points: the status marks
      of line 175 lie beyond the range of the strings.  A console prints
      every character below U+0100; whether it prints the others is a
      property of the [World].
    - Effects (network, clock, console, file system) are threaded through an
      explicit [World]; Python exceptions are the left summand of a result.
      The exceptions are those of the class [Exception]; an interrupt of the
      interpreter (KeyboardInterrupt, SystemExit) is not modelled. *)

From Stdlib Require Import ZArith NArith Ascii String List DecimalString SpecFloat Lia.
From stdpp Require Import base option list strings gmap.

Set Warnings "-register-all".
Local Open Scope Z_scope.

(* ================================================================== *)
(** ** Characters *)

Definition code (c : ascii) : N := N_of_ascii c.

Definition in_range (lo hi : N) (c : ascii) : bool :=
  ((lo <=? code c) && (code c <=? hi))%N.

(** [str.isspace] on one character; the same set is the regex class [\s] and
    the separator set of [str.split()] and [str.strip()]: TAB..CR, FS..US,
    SPACE, NEL and NO-BREAK SPACE. *)
Definition isspace (c : ascii) : bool :=
  in_range 9 13 c || in_range 28 32 c || in_range 133 133 c || in_range 160 160 c.

(** [str.isalnum] on one character: the ASCII letters and digits, and the
    Latin-1 letters and numerics. *)
Definition isalnum (c : ascii) : bool :=
  in_range 48 57 c || in_range 65 90 c || in_range 97 122 c
  || in_range 170 170 c || in_range 178 179 c || in_range 181 181 c
  || in_range 185 186 c || in_range 188 190 c
  || in_range 192 214 c || in_range 216 246 c || in_range 248 255 c.

(** The regex class [\w]: alphanumeric or the underscore. *)
Definition is_word (c : ascii) : bool := isalnum c || in_range 95 95 c.

Definition space : ascii := " "%char.
Definition dquote : string := String "034"%char EmptyString.
Definition newline : string := String "010"%char EmptyString.

(* ================================================================== *)
(** ** The string methods the program calls *)

Definition is_empty (s : string) : bool :=
  match s with EmptyString => true | String _ _ => false end.

Fixpoint chars (s : string) : list ascii :=
  match s with
  | EmptyString => []
  | String c s' => c :: chars s'
  end.

Fixpoint map_chars (f : ascii -> ascii) (s : string) : string :=
  match s with
  | EmptyString => EmptyString
  | String c s' => String (f c) (map_chars f s')
  end.

(** [str(n)] for an int. *)
Definition str_int (n : Z) : string := NilZero.string_of_int (Z.to_int n).

(** [sep * n] *)
Fixpoint repeat_str (sep : string) (n : nat) : string :=
  match n with
  | O => EmptyString
  | S k => sep +:+ repeat_str sep k
  end.

(** [sep.join(parts)] *)
Fixpoint join (sep : string) (parts : list string) : string :=
  match parts with
  | [] => EmptyString
  | [p] => p
  | p :: rest => p +:+ sep +:+ join sep rest
  end.

(** [s.lstrip()], [s.rstrip()] and [s.strip()] *)
Fixpoint lstrip (s : string) : string :=
  match s with
  | EmptyString => EmptyString
  | String c s' => if isspace c then lstrip s' else s
  end.

Fixpoint rstrip (s : string) : string :=
  match s with
  | EmptyString => EmptyString
  | String c s' =>
      let r := rstrip s' in
      if isspace c && is_empty r then EmptyString else String c r
  end.

Definition strip (s : string) : string := rstrip (lstrip s).

(** [s.split()]: the maximal runs of non-whitespace characters, in order.
    [word] is the run being read. *)
Fixpoint split_ws_from (word : string) (s : string) : list string :=
  match s with
  | EmptyString => if is_empty word then [] else [word]
  | String c s' =>
      if isspace c
      then (if is_empty word then split_ws_from EmptyString s'
            else word :: split_ws_from EmptyString s')
      else split_ws_from (word +:+ String c EmptyString) s'
  end.

Definition split_ws (s : string) : list string := split_ws_from EmptyString s.

(** [s.startswith(p)] *)
Fixpoint startswith (p s : string) : bool :=
  match p, s with
  | EmptyString, _ => true
  | String _ _, EmptyString => false
  | String a p', String b s' => Ascii.eqb a b && startswith p' s'
  end.

(** [s.find(sub)], with [None] for Python's -1. *)
Fixpoint find (sub s : string) : option nat :=
  if startswith sub s then Some O
  else match s with
       | EmptyString => None
       | String _ s' => S <$> find sub s'
       end.

(** [sub in s] *)
Definition contains (sub s : string) : bool :=
  match find sub s with Some _ => true | None => false end.

(** [s.split(sep)] for a non-empty [sep] (the program passes two literals):
    a left-to-right scan that cuts at every separator met and resumes behind
    it. [skip] counts the characters of a separator still to be passed over,
    [piece] is the part being read. *)
Fixpoint split_scan (sep : string) (skip : nat) (piece : string) (s : string)
  : list string :=
  match s with
  | EmptyString => [piece]
  | String c s' =>
      match skip with
      | S k => split_scan sep k piece s'
      | O =>
          if startswith sep s
          then piece :: split_scan sep (String.length sep - 1) EmptyString s'
          else split_scan sep O (piece +:+ String c EmptyString) s'
      end
  end.

Definition split (s sep : string) : list string := split_scan sep O EmptyString s.

(* ================================================================== *)
(** ** QueryBuilder: [clean_text] and [build_search_query] *)

(** [re.sub(r'[^\w\s]', ' ', text)] *)
Definition sub_special (text : string) : string :=
  map_chars (fun c => if is_word c || isspace c then c else space) text.

Definition clean_text (text : string) : string :=
  if is_empty text then EmptyString
  else
    let text := sub_special text in
    let text := join " " (split_ws text) in
    strip text.

(** Lines 60-69: the last name of the first author of an [author] field. *)
Definition first_author_last_name (author : string) : string :=
  let authors := split author " and " in
  match authors with
  | [] => EmptyString
  | a0 :: _ =>
      let first_author := strip a0 in
      let name_parts := split first_author "," in
      if (1 <? length name_parts)%nat
      then strip (hd EmptyString name_parts)
      else
        let name_parts := split_ws first_author in
        if (0 <? length name_parts)%nat then List.last name_parts EmptyString
        else EmptyString
  end.

Definition build_search_query (entry : gmap string string) : string :=
  let query_parts : list string := [] in
  let query_parts :=
    match entry !! "title" with
    | Some t =>
        let title := clean_text t in
        query_parts ++ [dquote +:+ title +:+ dquote]
    | None => query_parts
    end in
  let query_parts :=
    match entry !! "author" with
    | Some a =>
        let last_name := first_author_last_name a in
        if negb (is_empty last_name)
        then query_parts ++ ["author:" +:+ dquote +:+ last_name +:+ dquote]
        else query_parts
    | None => query_parts
    end in
  let query_parts :=
    match entry !! "year" with
    | Some y => query_parts ++ [y]
    | None => query_parts
    end in
  join " " query_parts.

(* ================================================================== *)
(** ** The parsed page: what [BeautifulSoup(content, 'html.parser')] builds *)

(** An element of the tree: a text node, or a tag with its name, the values of
    its [class] attribute (empty when it has none) and its children. *)
Inductive node : Type :=
| NavigableString (s : string)
| Tag (name : string) (class : list string) (contents : list node).

Definition tag_name (n : node) : option string :=
  match n with NavigableString _ => None | Tag nm _ _ => Some nm end.

Definition tag_class (n : node) : list string :=
  match n with NavigableString _ => [] | Tag _ cls _ => cls end.

(** [tag.descendants]: every node below, in document order. *)
Fixpoint descendants (n : node) : list node :=
  match n with
  | NavigableString _ => []
  | Tag _ _ cs => flat_map (fun c => c :: descendants c) cs
  end.

(** The soup object is the document root; its children are the top-level
    nodes of the page. *)
Definition soup_nodes (soup : list node) : list node :=
  flat_map (fun c => c :: descendants c) soup.

(** [tag.string]: the text of a tag that has exactly one child, looked for
    through chains of only children. *)
Fixpoint dot_string (n : node) : option string :=
  match n with
  | NavigableString s => Some s
  | Tag _ _ [c] => dot_string c
  | Tag _ _ _ => None
  end.

(** A [{'class': wanted}] filter: [wanted] is one of the class values, or the
    whole attribute value. *)
Definition class_matches (wanted : string) (cls : list string) : bool :=
  existsb (String.eqb wanted) cls || String.eqb (join " " cls) wanted.

Definition is_tag_named (nm : string) (n : node) : bool :=
  match tag_name n with Some nm' => String.eqb nm nm' | None => false end.

(** [soup.find_all(name, {'class': wanted})] *)
Definition find_all (soup : list node) (nm wanted : string) : list node :=
  List.filter (fun n => is_tag_named nm n && class_matches wanted (tag_class n))
              (soup_nodes soup).

(** [c.lower()] on the ASCII letters, which are the only characters of the
    repertoire that a case-insensitive pattern made of ASCII letters and
    spaces can match. *)
Definition lower (c : ascii) : ascii :=
  if in_range 65 90 c then ascii_of_N (code c + 32) else c.

(** [re.compile(phrase, re.I).search(s)] for a pattern of letters and spaces. *)
Definition re_search_i (phrase s : string) : bool :=
  contains (map_chars lower phrase) (map_chars lower s).

(** [soup.find(name, string=re.compile(phrase, re.I))]: the first tag of that
    name whose [.string] is there and matches. *)
Definition find_string (soup : list node) (nm phrase : string) : option node :=
  List.find (fun n => is_tag_named nm n &&
                      match dot_string n with
                      | Some s => re_search_i phrase s
                      | None => false
                      end)
            (soup_nodes soup).

(** Truth value of the result of [find]: a tag is true, [None] is false. *)
Definition found_one {A} (o : option A) : bool :=
  match o with Some _ => true | None => false end.

(** Python's [a or b] on two lists. *)
Definition list_or {A} (a b : list A) : list A :=
  match a with [] => b | _ :: _ => a end.

Definition len {A} (l : list A) : Z := Z.of_nat (length l).

(* ================================================================== *)
(** ** Text beyond the repertoire of the strings *)

(** A Python [str] in full: a list of code points. The strings of the model
    are the texts whose characters are all below U+0100; the two status marks
    of line 175 are not among them. *)
Definition text : Type := list N.

(** A string as a text, and a list of strings as a list of texts. *)
Fixpoint wide (s : string) : text :=
  match s with
  | EmptyString => []
  | String c s' => code c :: wide s'
  end.

Definition wides (l : list string) : list text := List.map wide l.

#[warnings="-uniform-inheritance,-ambiguous-paths"]
Coercion wide : string >-> text.
#[warnings="-uniform-inheritance,-ambiguous-paths"]
Coercion wides : list >-> list.

(** The type expected of a list is known before its elements are read, so
    that a string written among texts is taken as a text. *)
Arguments cons {A} & _ _.
Arguments app {A} & _ _.

(** U+2713 CHECK MARK and U+2717 BALLOT X. *)
Definition check_mark : N := 10003.
Definition ballot_x : N := 10007.

(* ================================================================== *)
(** ** The world outside the program *)

(** The exceptions the handlers tell apart: [requests.RequestException], and
    every other [Exception]. *)
Inductive exn : Type :=
| RequestException (detail : string)
| Exception (detail : string).

(** [str(e)] *)
Definition str_exn (e : exn) : string :=
  match e with RequestException d => d | Exception d => d end.

(** The body of a response, as the HTML parser receives it: markup it
    rejects with an exception, or a page. *)
Inductive markup : Type :=
| Rejected (detail : string)
| Page (soup : list node).

Record response : Type := { status_code : Z; content : markup }.

Record World : Type := {
  (** [open] and [bibtexparser.load] of a path *)
  bibtex_files : string -> exn + list (gmap string string);
  (** the outcome of the n-th lookup, given its URL: the response of its
      GET, or the exception that its pause or its GET raised *)
  scholar : nat -> string -> exn + response;
  (** the URLs of the lookups begun so far, oldest first *)
  requested : list string;
  (** the number of pauses begun, one per lookup *)
  pauses : nat;
  (** the console: one text per [print] call that went through; its
      encoding has every character below U+0100 (Latin-1, UTF-8, ...), and
      [stdout_unicode] says whether it has the characters beyond (UTF-8) *)
  stdout : list text;
  stdout_unicode : bool;
  (** the file system: whether its n-th operation fails, how many were
      issued, and the text files written *)
  disk_fault : nat -> option string;
  disk_ops : nat;
  files : gmap string string
}.

Definition set_requested (f : list string -> list string) (w : World) : World :=
  {| bibtex_files := bibtex_files w; scholar := scholar w;
     requested := f (requested w); pauses := pauses w; stdout := stdout w;
     stdout_unicode := stdout_unicode w; disk_fault := disk_fault w; disk_ops := disk_ops w; files := files w |}.

Definition set_pauses (f : nat -> nat) (w : World) : World :=
  {| bibtex_files := bibtex_files w; scholar := scholar w;
     requested := requested w; pauses := f (pauses w); stdout := stdout w;
     stdout_unicode := stdout_unicode w; disk_fault := disk_fault w; disk_ops := disk_ops w; files := files w |}.

Definition set_stdout (f : list text -> list text) (w : World) : World :=
  {| bibtex_files := bibtex_files w; scholar := scholar w;
     requested := requested w; pauses := pauses w; stdout := f (stdout w);
     stdout_unicode := stdout_unicode w; disk_fault := disk_fault w; disk_ops := disk_ops w; files := files w |}.

Definition set_disk (ops : nat) (fs : gmap string string) (w : World) : World :=
  {| bibtex_files := bibtex_files w; scholar := scholar w;
     requested := requested w; pauses := pauses w; stdout := stdout w;
     stdout_unicode := stdout_unicode w; disk_fault := disk_fault w; disk_ops := ops; files := fs |}.

(* ================================================================== *)
(** ** Computations: state passing with exceptions *)

Definition M (A : Type) : Type := World -> (exn + A) * World.

Definition ret {A} (a : A) : M A := fun w => (inr a, w).

Definition raise {A} (e : exn) : M A := fun w => (inl e, w).

Definition bind {A B} (m : M A) (k : A -> M B) : M B :=
  fun w =>
    match m w with
    | (inr a, w') => k a w'
    | (inl e, w') => (inl e, w')
    end.

(** [try: body  except ... as e: handler e] *)
Definition try_except {A} (body : M A) (handler : exn -> M A) : M A :=
  fun w =>
    match body w with
    | (inr a, w') => (inr a, w')
    | (inl e, w') => handler e w'
    end.

Declare Scope py_scope.
Delimit Scope py_scope with py.
Notation "'let*' x ':=' c1 'in' c2" := (bind c1 (fun x => c2))
  (at level 10, x pattern, c1 at level 100, c2 at level 200) : py_scope.
Notation "c1 '>>' c2" := (bind c1 (fun _ => c2))
  (at level 100, c2 at level 200, right associativity) : py_scope.
Local Open Scope py_scope.

(** [for x in l: body x] *)
Fixpoint for_each {A} (l : list A) (body : A -> M unit) : M unit :=
  match l with
  | [] => ret tt
  | x :: rest => body x >> for_each rest body
  end.

(** Whether the encoding of the console has a character. *)
Definition encodable (w : World) (c : N) : bool :=
  (c <? 256)%N || stdout_unicode w.

(** UnicodeEncodeError, a subclass of ValueError and so of Exception. *)
Definition unicode_encode_error : exn :=
  Exception "'latin-1' codec can't encode character: ordinal not in range(256)".

(** [print(s)]: the text goes to the console when its encoding has every
    character of it; otherwise the call raises UnicodeEncodeError and nothing
    is printed. *)
Definition print (s : text) : M unit :=
  fun w =>
    if forallb (encodable w) s
    then (inr tt, set_stdout (fun out => out ++ [s]) w)
    else (inl unicode_encode_error, w).

(** Lines 94 to 97, in the [try] of a lookup:
    [delay = random.uniform( *self.delay_range)], [time.sleep(delay)] and
    [self.session.get(url, timeout=10)].  The world tells the outcome of the
    three together: the response, or the exception that ended them, which is a
    RequestException of the GET or any other exception, such as the ValueError
    of [time.sleep] on a negative delay.  The lookup is counted, and its URL
    kept, whether or not it came as far as the GET; the length of the pause is
    not modelled. *)
Definition paused_get (url : string) : M response :=
  fun w =>
    let w' := set_requested (fun l => l ++ [url]) (set_pauses S w) in
    match scholar w (length (requested w)) url with
    | inl e => (inl e, w')
    | inr r => (inr r, w')
    end.

(** [BeautifulSoup(content, 'html.parser')] *)
Definition BeautifulSoup (c : markup) : M (list node) :=
  match c with
  | Rejected d => raise (Exception d)
  | Page soup => ret soup
  end.

(** One file-system operation: it fails if the disk says so, and otherwise
    changes the files with [f]. *)
Definition disk_op (f : gmap string string -> gmap string string) : M unit :=
  fun w =>
    match disk_fault w (disk_ops w) with
    | Some d => (inl (Exception d), set_disk (S (disk_ops w)) (files w) w)
    | None => (inr tt, set_disk (S (disk_ops w)) (f (files w)) w)
    end.

(** [open(path, 'w', encoding='utf-8')]: the file is created or emptied. *)
Definition open_w (path : string) : M unit :=
  disk_op (fun fs => <[path := EmptyString]> fs).

(** [f.write(s)] *)
Definition write (path s : string) : M unit :=
  disk_op (fun fs => <[path := default EmptyString (fs !! path) +:+ s]> fs).

(* ================================================================== *)
(** ** urllib.parse.quote_plus *)

Definition hex_digit (n : N) : ascii :=
  if (n <? 10)%N then ascii_of_N (48 + n) else ascii_of_N (55 + n).

Definition percent (byte : N) : string :=
  String "%"%char (String (hex_digit (byte / 16)) (String (hex_digit (byte mod 16)) EmptyString)).

(** The UTF-8 bytes of a code point below U+0100, percent-encoded. *)
Definition percent_encode (c : ascii) : string :=
  if (code c <? 128)%N then percent (code c)
  else percent (192 + code c / 64) +:+ percent (128 + code c mod 64).

Definition is_unreserved (c : ascii) : bool :=
  in_range 48 57 c || in_range 65 90 c || in_range 97 122 c
  || in_range 95 95 c || in_range 45 46 c || in_range 126 126 c.

Fixpoint quote_plus (s : string) : string :=
  match s with
  | EmptyString => EmptyString
  | String c s' =>
      (if is_unreserved c then String c EmptyString
       else if Ascii.eqb c space then "+"
       else percent_encode c) +:+ quote_plus s'
  end.

(* ================================================================== *)
(** ** ResponseClassifier: [search_google_scholar] *)

Definition no_results_phrase : string := "did not match any articles".

(** Line 91: the URL of a query. *)
Definition scholar_url (query : string) : string :=
  "https://scholar.google.com/scholar?q=" +:+ quote_plus query.

Definition search_google_scholar (query : string) : M (bool * Z * string) :=
  try_except
    (let url := scholar_url query in
     let* response := paused_get url in
     if status_code response =? 429
     then ret (false, 0, "Rate limited by Google Scholar")
     else if negb (status_code response =? 200)
     then ret (false, 0, "HTTP " +:+ str_int (status_code response))
     else
       let* soup := BeautifulSoup (content response) in
       let result_divs :=
         list_or (find_all soup "div" "gs_r gs_or gs_scl")
                 (find_all soup "div" "gs_ri") in
       let no_results := find_string soup "div" no_results_phrase in
       if found_one no_results || (len result_divs =? 0)
       then ret (true, 0, EmptyString)
       else ret (true, len result_divs, EmptyString))
    (fun e =>
       match e with
       | RequestException d => ret (false, 0, "Network error: " +:+ d)
       | Exception d => ret (false, 0, "Error: " +:+ d)
       end).

(* ================================================================== *)
(** ** BatchRunner: [check_bibtex_file] *)

Record CheckResult : Type := {
  entry_id : string;
  title : string;
  query : string;
  found : bool;
  num_results : Z;
  error : string;
  success : bool
}.

(** Lines 162-170: the record built from an entry and the classifier's triple. *)
Definition make_result (entry_id title query : string)
    (success : bool) (num_results : Z) (error_msg : string) : CheckResult :=
  {| entry_id := entry_id;
     title := title;
     query := query;
     found := success && (0 <? num_results);
     num_results := if success then num_results else 0;
     error := error_msg;
     success := success |}.

(** The loop of lines 148-178 from position [i] on; [total] is
    [len(entries)] and [results] the list built so far. *)
Fixpoint check_entries (total : Z) (i : Z) (entries : list (gmap string string))
    (results : list CheckResult) : M (list CheckResult) :=
  match entries with
  | [] => ret results
  | entry :: rest =>
      let entry_id := default ("entry_" +:+ str_int i) (entry !! "ID") in
      let title := default "No title" (entry !! "title") in
      print (newline +:+ "[" +:+ str_int i +:+ "/" +:+ str_int total +:+ "] Checking: "
             +:+ entry_id) >>
      print ("Title: " +:+ title) >>
      let query := build_search_query entry in
      print ("Query: " +:+ query) >>
      let* (success, num_results, error_msg) := search_google_scholar query in
      let result := make_result entry_id title query success num_results error_msg in
      let results := results ++ [result] in
      (if success
       then
         let status : text := if 0 <? num_results then check_mark :: wide " FOUND"
                              else ballot_x :: wide " NOT FOUND" in
         print (wide "Status: " ++ status ++
                wide (" (" +:+ str_int num_results +:+ " results)"))
       else print ("Status: ERROR - " +:+ error_msg)) >>
      check_entries total (i + 1) rest results
  end.

(** [sum(1 for r in results if p(r))] *)
Definition count_if {A} (p : A -> bool) (l : list A) : Z :=
  len (List.filter p l).

(** ** ReportWriter: [save_results] and [print_summary] *)

(** The body of the [try] of [save_results]. *)
Definition save_results_body (results : list CheckResult) (output_file : string) : M unit :=
    (open_w output_file >>
     write output_file ("BibTeX Google Scholar Check Results" +:+ newline) >>
     write output_file (repeat_str "=" 50 +:+ newline +:+ newline) >>
     let found_count := count_if found results in
     let total_count := len results in
     write output_file ("Summary: " +:+ str_int found_count +:+ "/" +:+ str_int total_count
                        +:+ " entries found" +:+ newline +:+ newline) >>
     for_each results (fun result =>
       write output_file ("Entry ID: " +:+ entry_id result +:+ newline) >>
       write output_file ("Title: " +:+ title result +:+ newline) >>
       write output_file ("Query: " +:+ query result +:+ newline) >>
       (if success result
        then
          let status := if found result then "FOUND" else "NOT FOUND" in
          write output_file ("Status: " +:+ status +:+ " (" +:+ str_int (num_results result)
                             +:+ " results)" +:+ newline)
        else write output_file ("Status: ERROR - " +:+ error result +:+ newline)) >>
       write output_file (repeat_str "-" 30 +:+ newline +:+ newline)) >>
     print (newline +:+ "Results saved to: " +:+ output_file)).

Definition save_results (results : list CheckResult) (output_file : string) : M unit :=
  try_except
    (save_results_body results output_file)
    (fun e => print ("Error saving results: " +:+ str_exn e)).

Definition check_bibtex_file (bibtex_file_path : string) (output_file : option string)
  : M (list CheckResult) :=
  print ("Loading BibTeX file: " +:+ bibtex_file_path) >>
  fun w =>
    match bibtex_files w bibtex_file_path with
    | inl e =>
        (print ("Error loading BibTeX file: " +:+ str_exn e) >> ret []) w
    | inr entries =>
        (print ("Found " +:+ str_int (len entries) +:+ " entries to check") >>
         let* results := check_entries (len entries) 1 entries [] in
         (match output_file with
          | Some path => if negb (is_empty path) then save_results results path else ret tt
          | None => ret tt
          end) >>
         ret results) w
    end.

(** *** The success rate: binary64 arithmetic and the [.1f] format *)

Definition float : Type := spec_float.
Definition prec : Z := 53.
Definition emax : Z := 1024.

(** [float(n)]; exact for the counts of a report (below 2^53). *)
Definition float_of_int (n : Z) : float := binary_normalize prec emax n 0 false.

(** Division and product of binary64 numbers, rounded to nearest even. *)
Definition float_div (a b : Z) : float :=
  SFdiv prec emax (float_of_int a) (float_of_int b).
Definition float_mul (x y : float) : float := SFmul prec emax x y.

(** [a / b] on two ints: a ZeroDivisionError when [b] is 0. *)
Definition true_divide (a b : Z) : M float :=
  if b =? 0 then raise (Exception "division by zero") else ret (float_div a b).

(** [a / b] rounded to the nearest integer, a tie to the even one ([0 < b]). *)
Definition div_half_even (a b : Z) : Z :=
  let q := a / b in
  match 2 * (a mod b) ?= b with
  | Lt => q
  | Gt => q + 1
  | Eq => if Z.even q then q else q + 1
  end.

(** The absolute value of a finite float in tenths, correctly rounded. *)
Definition tenths (m : positive) (e : Z) : Z :=
  if 0 <=? e then 10 * Zpos m * 2 ^ e
  else div_half_even (10 * Zpos m) (2 ^ (- e)).

Definition sign_str (s : bool) : string := if s then "-" else EmptyString.

(** [f'{x:.1f}'] *)
Definition format_1f (x : float) : string :=
  match x with
  | S754_zero s => sign_str s +:+ "0.0"
  | S754_infinity s => sign_str s +:+ "inf"
  | S754_nan => "nan"
  | S754_finite s m e =>
      let t := tenths m e in
      sign_str s +:+ str_int (t / 10) +:+ "." +:+ str_int (t mod 10)
  end.

(** [f'{found/total*100:.1f}'] once the division has gone through. *)
Definition success_rate (found total : Z) : string :=
  format_1f (float_mul (float_div found total) (float_of_int 100)).

Definition print_summary (results : list CheckResult) : M unit :=
  let total := len results in
  let found := count_if found results in
  let errors := count_if (fun r => negb (success r)) results in
  print (newline +:+ repeat_str "=" 50) >>
  print "SUMMARY" >>
  print (repeat_str "=" 50) >>
  print ("Total entries checked: " +:+ str_int total) >>
  print ("Found in Google Scholar: " +:+ str_int found) >>
  print ("Not found: " +:+ str_int (total - found - errors)) >>
  print ("Errors: " +:+ str_int errors) >>
  (let* line :=
     (if 0 <? total
      then
        let* ratio := true_divide found total in
        ret ("Success rate: " +:+ format_1f (float_mul ratio (float_of_int 100)) +:+ "%")
      else ret "N/A") in
   print line) >>
  (if 0 <? errors
   then
     print (newline +:+ "Entries with errors:") >>
     for_each results (fun result =>
       if negb (success result)
       then print ("  - " +:+ entry_id result +:+ ": " +:+ error result)
       else ret tt)
   else ret tt).

(** The record of the end-to-end example. *)
Definition vaswani : gmap string string :=
  <["title" := "Attention Is All You Need"]>
    (<["author" := "Vaswani, A. and others"]> (<["year" := "2017"]> ∅)).


(* ================================================================== *)
(** ** Reference definitions, worded as the specification words them *)

(** Collapse every run of whitespace to one space; [in_run] says that the
    previous character was whitespace. *)
Fixpoint collapse_ws_from (in_run : bool) (s : string) : string :=
  match s with
  | EmptyString => EmptyString
  | String c s' =>
      if isspace c
      then (if in_run then collapse_ws_from true s'
            else String space (collapse_ws_from true s'))
      else String c (collapse_ws_from false s')
  end.

Definition collapse_ws (s : string) : string := collapse_ws_from false s.

(** The text before the first occurrence of [sep], all of [s] if there is none. *)
Definition before_first (sep s : string) : string :=
  match find sep s with
  | Some i => substring 0 i s
  | None => s
  end.

(** The last name of one author string. *)
Definition last_name_of (a : string) : string :=
  if contains "," a then strip (before_first "," a)
  else List.last (split_ws a) EmptyString.

(** The parts of a query, field by field. *)
Definition title_part (entry : gmap string string) : list string :=
  match entry !! "title" with
  | Some t => [dquote +:+ clean_text t +:+ dquote]
  | None => []
  end.

Definition author_part (entry : gmap string string) : list string :=
  match entry !! "author" with
  | Some a =>
      if is_empty (first_author_last_name a) then []
      else ["author:" +:+ dquote +:+ first_author_last_name a +:+ dquote]
  | None => []
  end.

Definition year_part (entry : gmap string string) : list string :=
  match entry !! "year" with
  | Some y => [y]
  | None => []
  end.

(** The result blocks of a page: the primary marker first, the secondary one
    if the primary yields nothing. *)
Definition result_blocks (soup : list node) : list node :=
  match find_all soup "div" "gs_r gs_or gs_scl" with
  | [] => find_all soup "div" "gs_ri"
  | d :: ds => d :: ds
  end.

(** A page carries the no-results marker when one of its [div] elements has a
    [.string] in which the phrase occurs, whatever the case of the letters. *)
Definition no_results_marker (soup : list node) : Prop :=
  exists d s, In d (soup_nodes soup) /\ tag_name d = Some "div" /\
              dot_string d = Some s /\ re_search_i no_results_phrase s = true.

(** [tag.get_text()]: the text nodes below, concatenated. *)
Fixpoint get_text (n : node) : string :=
  match n with
  | NavigableString s => s
  | Tag _ _ cs => fold_right (fun c acc => get_text c +:+ acc) EmptyString cs
  end.

Definition page_text (soup : list node) : string :=
  fold_right (fun c acc => get_text c +:+ acc) EmptyString soup.

(* ================================================================== *)
(** ** The classifier and the batch as functions of the answers of the network *)

(** The triple of lines 99-121 for a parsed page, and for an outcome of the GET. *)
Definition classify_page (soup : list node) : bool * Z * string :=
  if found_one (find_string soup "div" no_results_phrase) || (len (result_blocks soup) =? 0)
  then (true, 0, EmptyString)
  else (true, len (result_blocks soup), EmptyString).

Definition classify (outcome : exn + response) : bool * Z * string :=
  match outcome with
  | inl (RequestException d) => (false, 0, "Network error: " +:+ d)
  | inl (Exception d) => (false, 0, "Error: " +:+ d)
  | inr r =>
      if status_code r =? 429 then (false, 0, "Rate limited by Google Scholar")
      else if negb (status_code r =? 200) then (false, 0, "HTTP " +:+ str_int (status_code r))
      else match content r with
           | Rejected d => (false, 0, "Error: " +:+ d)
           | Page soup => classify_page soup
           end
  end.

(** The world after one lookup: one more pause begun, one more URL kept. *)
Definition after_lookup (q : string) (w : World) : World :=
  set_requested (fun l => l ++ [scholar_url q]) (set_pauses S w).

(** The record of the entry at 1-based position [i], given the outcome of its GET. *)
Definition result_of (i : Z) (entry : gmap string string) (outcome : exn + response)
  : CheckResult :=
  let '(success, num, err) := classify outcome in
  make_result (default ("entry_" +:+ str_int i) (entry !! "ID"))
              (default "No title" (entry !! "title"))
              (build_search_query entry) success num err.

(** The records of a batch whose first GET is the [n]-th of the session. *)
Fixpoint batch_results (sch : nat -> string -> exn + response) (n : nat) (i : Z)
    (entries : list (gmap string string)) : list CheckResult :=
  match entries with
  | [] => []
  | entry :: rest =>
      result_of i entry (sch n (scholar_url (build_search_query entry)))
      :: batch_results sch (S n) (i + 1) rest
  end.

(** The step of [check_bibtex_file] that follows the loop. *)
Definition persist (results : list CheckResult) (output_file : option string) : M unit :=
  match output_file with
  | Some path => if negb (is_empty path) then save_results results path else ret tt
  | None => ret tt
  end.

(** The world in which the loop of a run starts: two lines printed. *)
Definition loop_start (path : string) (entries : list (gmap string string)) (w : World)
  : World :=
  set_stdout (fun o => o ++ ["Found " +:+ str_int (len entries) +:+ " entries to check"])
    (set_stdout (fun o => o ++ ["Loading BibTeX file: " +:+ path]) w).

(** The eighth line of the summary. *)
Definition rate_line (found total : Z) : string :=
  if 0 <? total then "Success rate: " +:+ success_rate found total +:+ "%" else "N/A".

(* ================================================================== *)
(** ** Predicates of the proofs *)

(** A text that does not start with whitespace. *)
Definition starts_clean (s : string) : Prop :=
  match s with
  | EmptyString => True
  | String c _ => isspace c = false
  end.

(** A word character, or the space U+0020. *)
Definition word_or_space (c : ascii) : Prop := is_word c = true \/ c = space.

(** A computation that begins no lookup. *)
(** What no step of the loop changes: the network oracle, the kind of
    console, and the disk. *)
Definition same_disk (w w' : World) : Prop :=
  scholar w' = scholar w /\ stdout_unicode w' = stdout_unicode w /\
  disk_fault w' = disk_fault w /\ disk_ops w' = disk_ops w /\ files w' = files w.

Definition keeps_net {A} (m : M A) : Prop :=
  forall w, requested (snd (m w)) = requested w /\ pauses (snd (m w)) = pauses w.

(** A computation that only prints: it returns, and the console grows. *)
Definition only_prints (m : M unit) : Prop :=
  forall w, exists w' lines, m w = (inr tt, w') /\ stdout w' = stdout w ++ lines.

(* ================================================================== *)
(** ** Sample inputs *)

(** A disk on which every operation goes through, and one on which none does. *)
Definition quiet_disk : nat -> option string := fun _ => None.

Definition locked_disk : nat -> option string :=
  fun _ => Some "[Errno 13] Permission denied".


(** A network on which every request fails, and one that always answers [r]. *)
Definition offline : nat -> string -> exn + response :=
  fun _ _ => inl (RequestException "Connection refused").

Definition serving (r : response) : nat -> string -> exn + response :=
  fun _ _ => inr r.

Definition ok_page (soup : list node) : response :=
  {| status_code := 200; content := Page soup |}.

(** A fresh world whose BibTeX files all hold [entries]. *)
Definition world_with (entries : list (gmap string string))
    (sch : nat -> string -> exn + response) (fault : nat -> option string) : World :=
  {| bibtex_files := fun _ => inr entries; scholar := sch; requested := [];
     pauses := 0%nat; stdout := []; stdout_unicode := true; disk_fault := fault;
     disk_ops := 0%nat; files := ∅ |}.

(** The same world with a Latin-1 console: the status marks cannot be printed. *)
Definition latin1_world_with (entries : list (gmap string string))
    (sch : nat -> string -> exn + response) (fault : nat -> option string) : World :=
  {| bibtex_files := fun _ => inr entries; scholar := sch; requested := [];
     pauses := 0%nat; stdout := []; stdout_unicode := false; disk_fault := fault;
     disk_ops := 0%nat; files := ∅ |}.

(** An entry with an author and nothing else: no ID, no title, no year. *)
Definition smith : gmap string string := {[ "author" := "John Smith" ]}.

(** One hit, and a [div] whose string is the no-results sentence. *)
Definition page_hit_and_marker : list node :=
  [ Tag "div" ["gs_ri"] [NavigableString "Attention is all you need"];
    Tag "div" [] [NavigableString "Your search did not match any articles."] ].

(** One hit, and the no-results sentence in a paragraph. *)
Definition page_hit_and_text : list node :=
  [ Tag "div" ["gs_ri"] [NavigableString "Attention is all you need"];
    Tag "p" [] [NavigableString "Your search did not match any articles."] ].

(* ================================================================== *)
(** ** More sample inputs *)


(** An entry with an ID and a title that needs cleaning. *)
Definition knuth : gmap string string :=
  <["ID" := "knuth84"]> (<["title" := "The {TeX}book"]> ∅).

(* ================================================================== *)
(** ** The persisted report, piece by piece *)

(** The status line of one record. *)
Definition status_line (r : CheckResult) : string :=
  if success r
  then "Status: " +:+ (if found r then "FOUND" else "NOT FOUND") +:+ " (" +:+
       str_int (num_results r) +:+ " results)" +:+ newline
  else "Status: ERROR - " +:+ error r +:+ newline.

(** The five pieces written for one record. *)
Definition entry_block (r : CheckResult) : list string :=
  [ "Entry ID: " +:+ entry_id r +:+ newline;
    "Title: " +:+ title r +:+ newline;
    "Query: " +:+ query r +:+ newline;
    status_line r;
    repeat_str "-" 30 +:+ newline +:+ newline ].

(** All the pieces of a report, in the order of their writing: the header,
    the rule, the summary, then the blocks of the records. *)
Definition report_chunks (results : list CheckResult) : list string :=
  [ "BibTeX Google Scholar Check Results" +:+ newline;
    repeat_str "=" 50 +:+ newline +:+ newline;
    "Summary: " +:+ str_int (count_if found results) +:+ "/" +:+ str_int (len results)
    +:+ " entries found" +:+ newline +:+ newline ]
  ++ flat_map entry_block results.

(** The concatenation of a list of strings. *)
Definition concat_str (l : list string) : string :=
  fold_right String.append EmptyString l.

(** The text of a report written in full. *)
Definition report_text (results : list CheckResult) : string :=
  concat_str (report_chunks results).

(** Writing pieces one after the other to the same file. *)
Definition write_all (path : string) (chunks : list string) : M unit :=
  for_each chunks (write path).

(* ================================================================== *)
(** ** The console summary, line by line *)

(** The eight lines that every summary starts with. *)
Definition summary_lines (results : list CheckResult) : list string :=
  let total := len results in
  let found_count := count_if found results in
  let errors := count_if (fun r => negb (success r)) results in
  [ newline +:+ repeat_str "=" 50; "SUMMARY"; repeat_str "=" 50;
    "Total entries checked: " +:+ str_int total;
    "Found in Google Scholar: " +:+ str_int found_count;
    "Not found: " +:+ str_int (total - found_count - errors);
    "Errors: " +:+ str_int errors;
    rate_line found_count total ].

(** The line of one failed record in the listing of errors. *)
Definition error_line (r : CheckResult) : string :=
  "  - " +:+ entry_id r +:+ ": " +:+ error r.

(** The listing of errors: a heading and one line per failed record, in
    order; nothing when no record failed. *)
Definition error_listing (results : list CheckResult) : list string :=
  match List.filter (fun r => negb (success r)) results with
  | [] => []
  | failed => (newline +:+ "Entries with errors:") :: List.map error_line failed
  end.

(* ================================================================== *)
(** ** Reading a URL back *)

(** The value of a hexadecimal digit. *)
Definition hex_value (c : ascii) : N :=
  if in_range 48 57 c then code c - 48 else code c - 55.

(** The first character that a percent-encoded text stands for, and the text
    that follows its encoding. *)
Definition decode_first (s : string) : option (ascii * string) :=
  match s with
  | EmptyString => None
  | String c r =>
      if Ascii.eqb c "+" then Some (space, r)
      else if Ascii.eqb c "%" then
        match r with
        | String h1 (String h2 r2) =>
            let b := (hex_value h1 * 16 + hex_value h2)%N in
            if (b <? 128)%N then Some (ascii_of_N b, r2)
            else
              match r2 with
              | String _ (String h3 (String h4 r4)) =>
                  let b2 := (hex_value h3 * 16 + hex_value h4)%N in
                  Some (ascii_of_N ((b - 192) * 64 + (b2 - 128)), r4)
              | _ => None
              end
        | _ => None
        end
      else Some (c, r)
  end.

(** A character that may stand in a URL as it is, or that the encoding uses. *)
Definition url_char (c : ascii) : bool :=
  is_unreserved c || Ascii.eqb c "+" || Ascii.eqb c "%".

(* ================================================================== *)
(** ** The progress output of a run, record by record *)

(** The four lines printed for the record at 1-based position [i] of [total]. *)
(** The status line of a lookup that succeeded, with its mark. *)
Definition status_text (num_results : Z) : text :=
  wide "Status: " ++
  (if 0 <? num_results then check_mark :: wide " FOUND" else ballot_x :: wide " NOT FOUND") ++
  wide (" (" +:+ str_int num_results +:+ " results)").

Definition progress_lines (total i : Z) (r : CheckResult) : list text :=
  [ wide (newline +:+ "[" +:+ str_int i +:+ "/" +:+ str_int total +:+ "] Checking: "
          +:+ entry_id r);
    wide ("Title: " +:+ title r);
    wide ("Query: " +:+ query r);
    if success r then status_text (num_results r)
    else wide ("Status: ERROR - " +:+ error r) ].

(** The lines printed for the records from position [i] on. *)
Fixpoint progress_from (total i : Z) (results : list CheckResult) : list text :=
  match results with
  | [] => []
  | r :: rest => progress_lines total i r ++ progress_from total (i + 1) rest
  end.

(* ================================================================== *)
(** ** Strings: basic facts *)

Lemma str_app_nil_l (s : string) : EmptyString +:+ s = s.
Proof. reflexivity. Qed.

Lemma str_app_cons (c : ascii) (s t : string) : String c s +:+ t = String c (s +:+ t).
Proof. reflexivity. Qed.

Lemma str_app_nil_r (s : string) : s +:+ EmptyString = s.
Proof. induction s as [|c s IH]; [reflexivity|]. rewrite str_app_cons, IH. reflexivity. Qed.

Lemma str_app_assoc (r s t : string) : (r +:+ s) +:+ t = r +:+ (s +:+ t).
Proof.
  induction r as [|c r IH]; [reflexivity|].
  rewrite !str_app_cons, IH. reflexivity.
Qed.

Lemma is_empty_true (s : string) : is_empty s = true -> s = EmptyString.
Proof. destruct s; [reflexivity | discriminate]. Qed.

Lemma is_empty_app_char (w : string) (c : ascii) :
  is_empty (w +:+ String c EmptyString) = false.
Proof. destruct w; reflexivity. Qed.

(** The character classes are disjoint where they must be. *)
Lemma word_not_space (c : ascii) : is_word c = true -> isspace c = false.
Proof. destruct c as [[] [] [] [] [] [] [] []]; vm_compute; congruence. Qed.

Lemma space_not_word : is_word space = false.
Proof. reflexivity. Qed.

(* ------------------------------------------------------------------ *)
(** *** [strip] *)

Lemma lstrip_clean (s : string) : starts_clean s -> lstrip s = s.
Proof. destruct s as [|c s]; simpl; [reflexivity|]. intros ->. reflexivity. Qed.

Lemma rstrip_nonspace (c : ascii) (s : string) :
  isspace c = false -> rstrip (String c s) = String c (rstrip s).
Proof. intros H. simpl. rewrite H. reflexivity. Qed.

Lemma rstrip_idem (s : string) : rstrip (rstrip s) = rstrip s.
Proof.
  induction s as [|c s IH]; [reflexivity|].
  simpl. destruct (isspace c && is_empty (rstrip s)) eqn:E; [reflexivity|].
  simpl. rewrite IH, E. reflexivity.
Qed.

Lemma rstrip_clean (s : string) : starts_clean s -> starts_clean (rstrip s).
Proof.
  destruct s as [|c s]; simpl; [trivial|].
  intros H. rewrite H. simpl. exact H.
Qed.

Lemma strip_rstrip_clean (s : string) :
  starts_clean s -> strip (rstrip s) = rstrip s.
Proof.
  intros H. unfold strip.
  rewrite (lstrip_clean (rstrip s)) by (apply rstrip_clean; exact H).
  apply rstrip_idem.
Qed.

(* ------------------------------------------------------------------ *)
(** *** [split] on whitespace, [join] and the collapse of runs *)

Lemma split_ws_from_nonempty (s w : string) :
  Forall (fun x => is_empty x = false) (split_ws_from w s).
Proof.
  revert w. induction s as [|c s IH]; intros w; simpl.
  - destruct (is_empty w) eqn:E; [constructor|]. constructor; [exact E | constructor].
  - destruct (isspace c).
    + destruct (is_empty w) eqn:E; [apply IH|]. constructor; [exact E | apply IH].
    + apply IH.
Qed.

Lemma join_cons_nonempty (sep x : string) (xs : list string) :
  is_empty x = false -> is_empty (join sep (x :: xs)) = false.
Proof.
  destruct x as [|a x]; [discriminate|]. intros _.
  destruct xs; reflexivity.
Qed.

Lemma collapse_true_clean (s : string) : starts_clean (collapse_ws_from true s).
Proof.
  induction s as [|c s IH]; simpl; [trivial|].
  destruct (isspace c) eqn:E; [exact IH | exact E].
Qed.

Lemma lstrip_collapse (s : string) :
  lstrip (collapse_ws_from false s) = collapse_ws_from true s.
Proof.
  destruct s as [|c s]; simpl; [reflexivity|].
  destruct (isspace c) eqn:E; simpl.
  - apply lstrip_clean, collapse_true_clean.
  - rewrite E. reflexivity.
Qed.

(** The words of a text, joined by single spaces, are its collapse without the
    whitespace at the ends; stated for a scan in the middle of a word and for
    one between words. *)
Lemma join_split_collapse (s : string) :
  (forall w, is_empty w = false ->
     join " " (split_ws_from w s) = w +:+ rstrip (collapse_ws_from false s)) /\
  join " " (split_ws_from EmptyString s) = rstrip (collapse_ws_from true s).
Proof.
  induction s as [|c s [IH1 IH2]].
  - split; [|reflexivity]. intros w Hw. simpl. rewrite Hw. simpl.
    symmetry. apply str_app_nil_r.
  - split.
    + intros w Hw. simpl. destruct (isspace c) eqn:E.
      * rewrite Hw. simpl rstrip. rewrite <- IH2.
        pose proof (split_ws_from_nonempty s EmptyString) as Hne.
        destruct (split_ws_from EmptyString s) as [|x xs] eqn:Ews.
        -- simpl. symmetry. apply str_app_nil_r.
        -- rewrite (join_cons_nonempty " " x xs) by (inversion Hne; assumption).
           simpl andb. cbv iota.
           change (join " " (w :: x :: xs)) with (w +:+ " " +:+ join " " (x :: xs)).
           reflexivity.
      * rewrite IH1 by apply is_empty_app_char.
        rewrite (rstrip_nonspace c _ E), str_app_assoc. reflexivity.
    + simpl. destruct (isspace c) eqn:E.
      * exact IH2.
      * rewrite str_app_nil_l, IH1 by reflexivity.
        rewrite (rstrip_nonspace c _ E). reflexivity.
Qed.

Lemma join_split_ws (s : string) :
  join " " (split_ws s) = strip (collapse_ws s).
Proof.
  unfold split_ws, strip, collapse_ws.
  rewrite lstrip_collapse. apply (join_split_collapse s).
Qed.

Lemma clean_text_pipeline (text : string) :
  clean_text text = strip (collapse_ws (sub_special text)).
Proof.
  unfold clean_text. destruct text as [|c t]; [reflexivity|].
  cbv zeta. simpl is_empty. cbv iota.
  unfold split_ws. rewrite (proj2 (join_split_collapse _)).
  rewrite strip_rstrip_clean by apply collapse_true_clean.
  unfold strip, collapse_ws. rewrite lstrip_collapse. reflexivity.
Qed.

(* ------------------------------------------------------------------ *)
(** *** The characters of a cleaned text *)

Lemma chars_map_chars (f : ascii -> ascii) (s : string) :
  chars (map_chars f s) = List.map f (chars s).
Proof. induction s as [|c s IH]; simpl; [reflexivity | rewrite IH; reflexivity]. Qed.

Lemma rstrip_chars_Forall (P : ascii -> Prop) (s : string) :
  Forall P (chars s) -> Forall P (chars (rstrip s)).
Proof.
  induction s as [|c s IH]; simpl; [trivial|].
  intros H. inversion H as [|? ? Hc Hs]; subst.
  destruct (isspace c && is_empty (rstrip s)); simpl; [constructor|].
  constructor; [exact Hc | apply IH, Hs].
Qed.

Lemma lstrip_chars_Forall (P : ascii -> Prop) (s : string) :
  Forall P (chars s) -> Forall P (chars (lstrip s)).
Proof.
  induction s as [|c s IH]; simpl; [trivial|].
  intros H. inversion H as [|? ? Hc Hs]; subst.
  destruct (isspace c); [apply IH, Hs | exact H].
Qed.

Lemma collapse_chars (b : bool) (s : string) :
  Forall (fun c => is_word c || isspace c = true) (chars s) ->
  Forall word_or_space (chars (collapse_ws_from b s)).
Proof.
  revert b. induction s as [|c s IH]; intros b H; simpl; [constructor|].
  inversion H as [|? ? Hc Hs]; subst.
  destruct (isspace c) eqn:E.
  - destruct b; [apply IH, Hs|]. simpl. constructor; [right; reflexivity | apply IH, Hs].
  - simpl. constructor; [|apply IH, Hs].
    left. rewrite orb_false_r in Hc. exact Hc.
Qed.

Lemma sub_special_chars (s : string) :
  Forall (fun c => is_word c || isspace c = true) (chars (sub_special s)).
Proof.
  unfold sub_special. induction s as [|c s IH]; simpl; [constructor|].
  constructor; [|exact IH].
  destruct (is_word c || isspace c) eqn:E; [exact E | reflexivity].
Qed.

Lemma clean_text_chars (text : string) :
  Forall word_or_space (chars (clean_text text)).
Proof.
  rewrite clean_text_pipeline. unfold strip, collapse_ws.
  apply rstrip_chars_Forall, lstrip_chars_Forall, collapse_chars, sub_special_chars.
Qed.

Lemma not_word_of_space (c : ascii) : isspace c = true -> is_word c = false.
Proof.
  intros H. destruct (is_word c) eqn:E; [|reflexivity].
  apply word_not_space in E. congruence.
Qed.

Lemma rstrip_words (s : string) :
  List.filter is_word (chars (rstrip s)) = List.filter is_word (chars s).
Proof.
  induction s as [|c s IH]; simpl; [reflexivity|].
  destruct (isspace c && is_empty (rstrip s)) eqn:E.
  - apply andb_true_iff in E as [Hc He].
    rewrite (not_word_of_space c Hc), <- IH, (is_empty_true _ He). reflexivity.
  - simpl. rewrite IH. reflexivity.
Qed.

Lemma lstrip_words (s : string) :
  List.filter is_word (chars (lstrip s)) = List.filter is_word (chars s).
Proof.
  induction s as [|c s IH]; simpl; [reflexivity|].
  destruct (isspace c) eqn:E; [|reflexivity].
  rewrite (not_word_of_space c E). exact IH.
Qed.

Lemma collapse_words (b : bool) (s : string) :
  List.filter is_word (chars (collapse_ws_from b s)) = List.filter is_word (chars s).
Proof.
  revert b. induction s as [|c s IH]; intros b; [reflexivity|].
  cbn [collapse_ws_from chars List.filter].
  destruct (isspace c) eqn:E.
  - rewrite (not_word_of_space c E).
    destruct b; [apply IH|].
    cbn [chars List.filter]. rewrite space_not_word. apply IH.
  - cbn [chars List.filter]. rewrite IH. reflexivity.
Qed.

Lemma sub_special_words (s : string) :
  List.filter is_word (chars (sub_special s)) = List.filter is_word (chars s).
Proof.
  unfold sub_special. induction s as [|c s IH]; [reflexivity|].
  cbn [map_chars chars List.filter].
  destruct (is_word c) eqn:E; cbn [orb].
  - rewrite E, IH. reflexivity.
  - destruct (isspace c); [rewrite E | rewrite space_not_word]; exact IH.
Qed.

Lemma clean_text_words (text : string) :
  List.filter is_word (chars (clean_text text)) = List.filter is_word (chars text).
Proof.
  rewrite clean_text_pipeline. unfold strip, collapse_ws.
  rewrite rstrip_words, lstrip_words, collapse_words. apply sub_special_words.
Qed.

(* ------------------------------------------------------------------ *)
(** *** [find] and [split] on a separator *)

Lemma startswith_nonempty_nil (sep : string) :
  is_empty sep = false -> startswith sep EmptyString = false.
Proof. destruct sep; [discriminate | reflexivity]. Qed.

Lemma split_scan_not_nil (sep : string) (s : string) (k : nat) (p : string) :
  split_scan sep k p s <> [].
Proof.
  revert k p. induction s as [|c s IH]; intros k p; simpl; [discriminate|].
  destruct k; [|apply IH].
  destruct (startswith sep (String c s)); [discriminate | apply IH].
Qed.

Lemma split_scan_hd (sep : string) (s p : string) :
  is_empty sep = false ->
  hd EmptyString (split_scan sep O p s) = p +:+ before_first sep s.
Proof.
  intros Hsep. unfold before_first. revert p.
  induction s as [|c s IH]; intros p.
  - simpl. rewrite (startswith_nonempty_nil sep Hsep). symmetry. apply str_app_nil_r.
  - cbn [split_scan find].
    destruct (startswith sep (String c s)) eqn:E.
    + simpl. symmetry. apply str_app_nil_r.
    + rewrite IH, str_app_assoc, str_app_cons, str_app_nil_l.
      destruct (find sep s) as [i|]; reflexivity.
Qed.

Lemma split_scan_many (sep : string) (s p : string) :
  is_empty sep = false ->
  (1 <? length (split_scan sep O p s))%nat = contains sep s.
Proof.
  intros Hsep. unfold contains. revert p.
  induction s as [|c s IH]; intros p.
  - simpl. rewrite (startswith_nonempty_nil sep Hsep). reflexivity.
  - cbn [split_scan find].
    destruct (startswith sep (String c s)) eqn:E.
    + pose proof (split_scan_not_nil sep s (String.length sep - 1) EmptyString) as H.
      destruct (split_scan sep (String.length sep - 1) EmptyString s); [congruence|].
      reflexivity.
    + rewrite IH. destruct (find sep s); reflexivity.
Qed.

Lemma split_hd (s sep : string) :
  is_empty sep = false -> hd EmptyString (split s sep) = before_first sep s.
Proof. intros H. unfold split. rewrite split_scan_hd by exact H. reflexivity. Qed.

(** A separator that starts a prefix of [s] starts [s]. *)
Lemma startswith_substring (sep s : string) (i : nat) :
  startswith sep (substring 0 i s) = true -> startswith sep s = true.
Proof.
  revert s i. induction sep as [|a sep IH]; intros s i; [reflexivity|].
  destruct s as [|b s]; [destruct i; simpl; discriminate|].
  destruct i as [|i]; simpl; [discriminate|].
  intros H. apply andb_true_iff in H as [Hab H].
  rewrite Hab. simpl. exact (IH s i H).
Qed.

(** Nothing before the first separator holds a separator. *)
Lemma find_before_first (sep s : string) :
  is_empty sep = false -> find sep (before_first sep s) = None.
Proof.
  intros Hsep. unfold before_first.
  induction s as [|c s IH].
  - simpl. rewrite (startswith_nonempty_nil sep Hsep). simpl.
    rewrite (startswith_nonempty_nil sep Hsep). reflexivity.
  - cbn [find]. destruct (startswith sep (String c s)) eqn:E.
    + simpl. rewrite (startswith_nonempty_nil sep Hsep). reflexivity.
    + destruct (find sep s) as [i|] eqn:F; simpl fmap; cbv iota beta.
      * change (substring 0 (S i) (String c s)) with (String c (substring 0 i s)).
        cbn [find].
        destruct (startswith sep (String c (substring 0 i s))) eqn:E'.
        -- apply (startswith_substring sep (String c s) (S i)) in E'. congruence.
        -- rewrite IH. reflexivity.
      * cbn [find]. rewrite E, F. reflexivity.
Qed.

Lemma before_first_idem (sep s : string) :
  is_empty sep = false -> before_first sep (before_first sep s) = before_first sep s.
Proof.
  intros H. unfold before_first at 1. rewrite (find_before_first sep s H). reflexivity.
Qed.

(** Lines 60-69 against the reference wording. *)
Lemma first_author_last_name_spec (author : string) :
  first_author_last_name author = last_name_of (strip (before_first " and " author)).
Proof.
  unfold first_author_last_name, last_name_of.
  pose proof (split_hd author " and " eq_refl) as Hhd.
  pose proof (split_scan_not_nil " and " author O EmptyString) as Hnn.
  unfold split in *.
  destruct (split_scan " and " 0 EmptyString author) as [|a0 rest]; [congruence|].
  simpl in Hhd. subst a0. cbv zeta.
  rewrite (split_scan_many "," _ EmptyString eq_refl).
  destruct (contains "," (strip (before_first " and " author))).
  - rewrite (split_scan_hd "," _ EmptyString eq_refl). reflexivity.
  - destruct (split_ws (strip (before_first " and " author))); reflexivity.
Qed.

(* ================================================================== *)
(** ** Running the computations *)

(** Every character of a string of the repertoire is below 256, so a console
    of either kind prints it. *)
Lemma wide_encodable (w : World) (s : string) : forallb (encodable w) (wide s) = true.
Proof.
  induction s as [|c s IH]; cbn [wide forallb]; [reflexivity|].
  rewrite IH, andb_true_r. unfold encodable. apply orb_true_iff. left.
  apply N.ltb_lt, N_ascii_bounded.
Qed.

Lemma print_run (s : string) (w : World) :
  print s w = (inr tt, set_stdout (fun out => out ++ [wide s]) w).
Proof. unfold print. rewrite wide_encodable. reflexivity. Qed.

Lemma bind_print {A} (s : string) (k : unit -> M A) (w : World) :
  bind (print s) k w = k tt (set_stdout (fun out => out ++ [s]) w).
Proof. unfold bind. rewrite print_run. reflexivity. Qed.

(** The status line of a lookup that succeeded holds a mark above 255: only a
    console with the wider repertoire prints it. *)
Lemma status_line_encodable (w : World) (n : Z) :
  forallb (encodable w) (status_text n) = stdout_unicode w.
Proof.
  unfold status_text. rewrite !List.forallb_app, !wide_encodable, andb_true_r.
  cbn [andb]. destruct (0 <? n); cbn [forallb]; rewrite wide_encodable, andb_true_r;
    reflexivity.
Qed.

Lemma bind_print_status {A} (n : Z) (k : unit -> M A) (w : World) :
  bind (print (status_text n)) k w
  = if stdout_unicode w
    then k tt (set_stdout (fun out => out ++ [status_text n]) w)
    else (inl unicode_encode_error, w).
Proof.
  unfold bind, print. rewrite status_line_encodable.
  destruct (stdout_unicode w); reflexivity.
Qed.

Lemma list_or_blocks (soup : list node) :
  list_or (find_all soup "div" "gs_r gs_or gs_scl") (find_all soup "div" "gs_ri")
  = result_blocks soup.
Proof. unfold list_or, result_blocks. destruct (find_all soup "div" "gs_r gs_or gs_scl"); reflexivity. Qed.

Lemma search_google_scholar_run (q : string) (w : World) :
  search_google_scholar q w =
  (inr (classify (scholar w (length (requested w)) (scholar_url q))), after_lookup q w).
Proof.
  unfold search_google_scholar, try_except, bind, paused_get, after_lookup.
  destruct (scholar w (length (requested w)) (scholar_url q)) as [[d|d]|r]; cbn [classify].
  - reflexivity.
  - reflexivity.
  - destruct (status_code r =? 429); [reflexivity|].
    destruct (status_code r =? 200); cbn [negb]; [|reflexivity].
    destruct (content r) as [d|soup]; cbn [BeautifulSoup raise ret]; [reflexivity|].
    rewrite list_or_blocks. unfold classify_page.
    destruct (found_one _ || _); reflexivity.
Qed.

Lemma found_one_marker (soup : list node) :
  found_one (find_string soup "div" no_results_phrase) = true <-> no_results_marker soup.
Proof.
  unfold find_string, no_results_marker, is_tag_named. split.
  - destruct (List.find _ _) as [d|] eqn:F; [|discriminate]. intros _.
    apply List.find_some in F as [Hin Hd].
    apply andb_true_iff in Hd as [Hn Hs].
    destruct (tag_name d) as [nm|] eqn:Hnm; [|discriminate].
    apply String.eqb_eq in Hn. subst nm.
    destruct (dot_string d) as [s|] eqn:Hds; [|discriminate].
    exists d, s. auto.
  - intros (d & s & Hin & Hnm & Hds & Hs).
    destruct (List.find _ _) as [d'|] eqn:F; [reflexivity|].
    pose proof (List.find_none _ _ F d Hin) as Hnone. cbv beta in Hnone.
    rewrite Hnm, Hds, Hs in Hnone. discriminate.
Qed.

Lemma classify_page_shape (soup : list node) :
  exists n, classify_page soup = (true, n, EmptyString) /\
    (no_results_marker soup \/ result_blocks soup = [] -> n = 0) /\
    (~ no_results_marker soup -> result_blocks soup <> [] -> n = len (result_blocks soup)).
Proof.
  unfold classify_page.
  destruct (found_one (find_string soup "div" no_results_phrase)) eqn:F.
  - exists 0. cbn [orb]. split; [reflexivity|]. split; [reflexivity|].
    intros Hno. exfalso. apply Hno, found_one_marker, F.
  - cbn [orb]. destruct (len (result_blocks soup) =? 0) eqn:L.
    + exists 0. split; [reflexivity|]. split; [reflexivity|].
      intros _ Hne. exfalso. apply Hne. apply Z.eqb_eq in L. unfold len in L.
      destruct (result_blocks soup); [reflexivity | discriminate].
    + exists (len (result_blocks soup)). split; [reflexivity|]. split; [|reflexivity].
      intros [Hm|Hb].
      * apply found_one_marker in Hm. congruence.
      * rewrite Hb in L. discriminate.
Qed.

Lemma bind_search {A} (q : string) (k : bool * Z * string -> M A) (w : World) :
  bind (search_google_scholar q) k w
  = k (classify (scholar w (length (requested w)) (scholar_url q))) (after_lookup q w).
Proof. unfold bind. rewrite search_google_scholar_run. reflexivity. Qed.

(** The loop: either it returns [acc] with the records of the batch appended,
    having printed the four lines of each, or the console could not print the
    mark of a lookup that succeeded and the loop ends on that exception.  In
    both cases the disk is as it was. *)
Lemma check_entries_run (entries : list (gmap string string)) :
  forall (total i : Z) (acc : list CheckResult) (w : World),
  let batch := batch_results (scholar w) (length (requested w)) i entries in
  exists w',
    same_disk w w' /\
    ((check_entries total i entries acc w = (inr (acc ++ batch), w') /\
      stdout w' = stdout w ++ progress_from total i batch /\
      (stdout_unicode w = true \/ Forall (fun r => success r = false) batch))
     \/
     (check_entries total i entries acc w = (inl unicode_encode_error, w') /\
      stdout_unicode w = false /\
      Exists (fun r => success r = true) batch)).
Proof.
  induction entries as [|e es IH]; intros total i acc w; cbv zeta.
  - exists w. split; [repeat split|]. left. simpl.
    rewrite !List.app_nil_r. auto using List.Forall_nil.
  - cbn [check_entries batch_results progress_from]. cbv zeta.
    rewrite !bind_print, bind_search.
    cbn [scholar requested set_stdout]. unfold result_of, progress_lines.
    destruct (classify _) as [[ok num] err].
    cbn [success num_results error entry_id title query make_result].
    destruct ok.
    + change (print (_ ++ _)) with (print (status_text num)).
      rewrite bind_print_status. cbn [stdout_unicode after_lookup set_stdout set_requested set_pauses].
      destruct (stdout_unicode w) eqn:U.
      * match goal with |- context [check_entries total (i + 1) es ?acc' ?w1] =>
          destruct (IH total (i + 1) acc' w1) as (w' & Hframe & Hout)
        end.
        cbn [scholar requested stdout stdout_unicode disk_fault disk_ops files
             set_stdout after_lookup set_requested set_pauses] in Hframe, Hout.
        rewrite length_app, Nat.add_1_r in Hout.
        exists w'. split; [exact Hframe|].
        destruct Hout as [(Hrun & Hstd & _)|(_ & Hu & _)]; [|congruence].
        left. rewrite Hrun, Hstd, <- !List.app_assoc. auto.
      * eexists. split; cycle 1.
        { right. split; [reflexivity|]. split; [reflexivity|].
          apply List.Exists_cons_hd. reflexivity. }
        repeat split.
    + rewrite bind_print.
      match goal with |- context [check_entries total (i + 1) es ?acc' ?w1] =>
        destruct (IH total (i + 1) acc' w1) as (w' & Hframe & Hout)
      end.
      cbn [scholar requested stdout stdout_unicode disk_fault disk_ops files
           set_stdout after_lookup set_requested set_pauses] in Hframe, Hout.
      rewrite length_app, Nat.add_1_r in Hout.
      exists w'. split; [exact Hframe|].
      destruct Hout as [(Hrun & Hstd & Hok)|(Hrun & Hu & Hex)].
      * left. rewrite Hrun, Hstd, <- !List.app_assoc.
        split; [reflexivity|]. split; [reflexivity|].
        destruct Hok as [Hu|Hall]; [left; exact Hu|right].
        apply List.Forall_cons; [reflexivity | exact Hall].
      * right. rewrite Hrun. split; [reflexivity|]. split; [exact Hu|].
        apply List.Exists_cons_tl. exact Hex.
Qed.

Lemma batch_results_length sch n i entries :
  length (batch_results sch n i entries) = length entries.
Proof.
  revert n i. induction entries as [|e es IH]; intros n i; simpl; [reflexivity|].
  rewrite IH. reflexivity.
Qed.

Lemma batch_results_lookup sch entries :
  forall n i (k : nat) e,
    entries !! k = Some e ->
    batch_results sch n i entries !! k
    = Some (result_of (i + Z.of_nat k) e
                      (sch (n + k)%nat (scholar_url (build_search_query e)))).
Proof.
  induction entries as [|e0 es IH]; intros n i k e H; [discriminate|].
  destruct k as [|k]; cbn [batch_results].
  - injection H as ->. cbn. rewrite Z.add_0_r, Nat.add_0_r. reflexivity.
  - cbn in H |- *. rewrite (IH _ _ _ _ H).
    replace (i + 1 + Z.of_nat k) with (i + Z.of_nat (S k)) by lia.
    replace (S n + k)%nat with (n + S k)%nat by lia.
    reflexivity.
Qed.

(* ------------------------------------------------------------------ *)
(** *** What the report writer leaves alone *)

Lemma keeps_net_ret {A} (a : A) : keeps_net (ret a).
Proof. intros w. split; reflexivity. Qed.

Lemma keeps_net_print (s : text) : keeps_net (print s).
Proof. intros w. unfold print. destruct (forallb _ _); split; reflexivity. Qed.

Lemma keeps_net_disk_op f : keeps_net (disk_op f).
Proof. intros w. unfold disk_op. destruct (disk_fault w (disk_ops w)); split; reflexivity. Qed.

Lemma keeps_net_bind {A B} (m : M A) (k : A -> M B) :
  keeps_net m -> (forall a, keeps_net (k a)) -> keeps_net (bind m k).
Proof.
  intros Hm Hk w. unfold bind. specialize (Hm w).
  destruct (m w) as [[e|a] w1]; cbn [snd] in *; [exact Hm|].
  destruct (Hk a w1) as [Hr Hp]. destruct Hm as [Hr1 Hp1]. split; congruence.
Qed.

Lemma keeps_net_try {A} (m : M A) (h : exn -> M A) :
  keeps_net m -> (forall e, keeps_net (h e)) -> keeps_net (try_except m h).
Proof.
  intros Hm Hh w. unfold try_except. specialize (Hm w).
  destruct (m w) as [[e|a] w1]; cbn [snd] in *; [|exact Hm].
  destruct (Hh e w1) as [Hr Hp]. destruct Hm as [Hr1 Hp1]. split; congruence.
Qed.

Lemma keeps_net_for_each {A} (l : list A) (body : A -> M unit) :
  (forall x, keeps_net (body x)) -> keeps_net (for_each l body).
Proof.
  intros Hb. induction l as [|x l IH]; cbn [for_each]; [apply keeps_net_ret|].
  apply keeps_net_bind; [apply Hb | intros _; exact IH].
Qed.

Create HintDb net.
#[local] Hint Resolve keeps_net_ret keeps_net_print keeps_net_disk_op : net.

(** One structural step of a proof that a computation keeps the network. *)
Ltac keeps_net_step :=
  first [ apply keeps_net_bind; [|intros ?]
        | apply keeps_net_for_each; intros ?
        | apply keeps_net_try; [|intros ?]
        | solve [auto with net]
        | match goal with |- keeps_net (if ?b then _ else _) => destruct b end ].

Lemma keeps_net_save_results results out : keeps_net (save_results results out).
Proof.
  unfold save_results, save_results_body, open_w, write.
  repeat keeps_net_step.
Qed.

(** [save_results] never raises, whatever the disk does. *)
Lemma save_results_returns (results : list CheckResult) (out : string) (w : World) :
  exists w', save_results results out w = (inr tt, w').
Proof.
  unfold save_results, try_except.
  destruct (save_results_body results out w) as [[e|[]] w1]; [rewrite print_run|]; eauto.
Qed.

Lemma persist_returns results output_file w :
  exists w', persist results output_file w = (inr tt, w').
Proof.
  unfold persist. destruct output_file as [path|]; [|eexists; reflexivity].
  destruct (negb (is_empty path)); [apply save_results_returns | eexists; reflexivity].
Qed.

Lemma keeps_net_persist results output_file : keeps_net (persist results output_file).
Proof.
  unfold persist. destruct output_file as [path|]; [|apply keeps_net_ret].
  destruct (negb (is_empty path)); [apply keeps_net_save_results | apply keeps_net_ret].
Qed.

(** A run on a file that loads: the loop, then the optional report, unless
    the loop ended on a status line that the console could not print. *)
Lemma check_bibtex_file_loaded path output_file w entries :
  bibtex_files w path = inr entries ->
  let batch := batch_results (scholar w) (length (requested w)) 1 entries in
  exists w1,
    same_disk w w1 /\
    ((exists w',
        check_entries (len entries) 1 entries [] (loop_start path entries w)
        = (inr batch, w1) /\
        stdout w1 = stdout (loop_start path entries w)
                    ++ progress_from (len entries) 1 batch /\
        persist batch output_file w1 = (inr tt, w') /\
        check_bibtex_file path output_file w = (inr batch, w') /\
        (stdout_unicode w = true \/ Forall (fun r => success r = false) batch))
     \/
     (check_entries (len entries) 1 entries [] (loop_start path entries w)
      = (inl unicode_encode_error, w1) /\
      check_bibtex_file path output_file w = (inl unicode_encode_error, w1) /\
      stdout_unicode w = false /\
      Exists (fun r => success r = true) batch)).
Proof.
  intros Hload batch.
  assert (Hrun0 : check_bibtex_file path output_file w
                  = bind (check_entries (len entries) 1 entries [])
                         (fun results => bind (persist results output_file)
                                              (fun _ => ret results))
                         (loop_start path entries w)).
  { unfold check_bibtex_file. rewrite bind_print.
    cbn [bibtex_files set_stdout]. rewrite Hload, bind_print. reflexivity. }
  pose proof (check_entries_run entries (len entries) 1 [] (loop_start path entries w))
    as H. cbv zeta in H.
  change (scholar (loop_start path entries w)) with (scholar w) in H.
  change (requested (loop_start path entries w)) with (requested w) in H.
  change (stdout_unicode (loop_start path entries w)) with (stdout_unicode w) in H.
  cbn [app] in H. fold batch in H.
  destruct H as (w1 & Hframe & Hout).
  exists w1. split; [exact Hframe|].
  destruct Hout as [(Hrun & Hstd & Hok)|(Hrun & Hu & Hex)].
  - left. destruct (persist_returns batch output_file w1) as (w' & Hper).
    exists w'. split; [exact Hrun|]. split; [exact Hstd|]. split; [exact Hper|].
    split; [|exact Hok].
    rewrite Hrun0. unfold bind at 1. rewrite Hrun. unfold bind. rewrite Hper. reflexivity.
  - right. split; [exact Hrun|]. split; [|split; [exact Hu | exact Hex]].
    rewrite Hrun0. unfold bind at 1. rewrite Hrun. reflexivity.
Qed.

(** A run that returned: its results are the records of the batch. *)
Lemma check_bibtex_file_returned path output_file w entries results w' :
  bibtex_files w path = inr entries ->
  check_bibtex_file path output_file w = (inr results, w') ->
  let batch := batch_results (scholar w) (length (requested w)) 1 entries in
  results = batch /\
  exists w1,
    same_disk w w1 /\
    check_entries (len entries) 1 entries [] (loop_start path entries w) = (inr batch, w1) /\
    stdout w1 = stdout (loop_start path entries w) ++ progress_from (len entries) 1 batch /\
    persist batch output_file w1 = (inr tt, w').
Proof.
  intros Hload Hrun batch.
  destruct (check_bibtex_file_loaded path output_file w entries Hload)
    as (w1 & Hframe & [(w2 & Hloop & Hstd & Hper & Hrun2 & _)|(_ & Hrun2 & _)]).
  - rewrite Hrun2 in Hrun. injection Hrun as <- <-.
    split; [reflexivity|]. exists w1. auto.
  - rewrite Hrun2 in Hrun. discriminate.
Qed.

(** On a console that prints the marks, or when no lookup succeeds, the run
    on a file that loads returns. *)
Lemma check_bibtex_file_returns path output_file w entries :
  bibtex_files w path = inr entries ->
  stdout_unicode w = true \/
  Forall (fun r => success r = false)
         (batch_results (scholar w) (length (requested w)) 1 entries) ->
  let batch := batch_results (scholar w) (length (requested w)) 1 entries in
  exists w1 w',
    same_disk w w1 /\
    check_entries (len entries) 1 entries [] (loop_start path entries w) = (inr batch, w1) /\
    stdout w1 = stdout (loop_start path entries w) ++ progress_from (len entries) 1 batch /\
    persist batch output_file w1 = (inr tt, w') /\
    check_bibtex_file path output_file w = (inr batch, w').
Proof.
  intros Hload Hok batch.
  destruct (check_bibtex_file_loaded path output_file w entries Hload)
    as (w1 & Hframe & [(w2 & Hloop & Hstd & Hper & Hrun2 & _)|(_ & _ & Hu & Hex)]).
  - exists w1, w2. auto.
  - exfalso. destruct Hok as [Hok|Hok]; [congruence|].
    apply List.Exists_exists in Hex as (r & Hin & Hr).
    rewrite List.Forall_forall in Hok. specialize (Hok r Hin). congruence.
Qed.

Lemma check_bibtex_file_unloaded path output_file w e :
  bibtex_files w path = inl e ->
  exists w', check_bibtex_file path output_file w = (inr [], w').
Proof.
  intros Hload. unfold check_bibtex_file. rewrite bind_print.
  cbn [bibtex_files set_stdout]. rewrite Hload. rewrite bind_print.
  eexists. reflexivity.
Qed.

(* ------------------------------------------------------------------ *)
(** *** The parts of a query *)

Lemma build_search_query_parts (entry : gmap string string) :
  build_search_query entry = join " " (title_part entry ++ author_part entry ++ year_part entry).
Proof.
  unfold build_search_query, title_part, author_part, year_part.
  destruct (entry !! "title"), (entry !! "author") as [a|], (entry !! "year");
    try destruct (is_empty (first_author_last_name a)); reflexivity.
Qed.

(* ------------------------------------------------------------------ *)
(** *** The records of a batch *)

Lemma batch_results_Forall (P : CheckResult -> Prop) sch :
  (forall i e n url, P (result_of i e (sch n url))) ->
  forall entries n i, Forall P (batch_results sch n i entries).
Proof.
  intros HP. induction entries as [|e es IH]; intros n i; cbn [batch_results].
  - constructor.
  - constructor; [apply HP | apply IH].
Qed.

Lemma result_of_fields i e o :
  entry_id (result_of i e o) = default ("entry_" +:+ str_int i) (e !! "ID") /\
  title (result_of i e o) = default "No title" (e !! "title") /\
  query (result_of i e o) = build_search_query e /\
  success (result_of i e o) = fst (fst (classify o)) /\
  error (result_of i e o) = snd (classify o).
Proof. unfold result_of. destruct (classify o) as [[s n] err]. repeat split. Qed.

Lemma result_of_invariant i e o :
  let r := result_of i e o in
  (found r = true <-> success r = true /\ 0 < num_results r) /\
  (success r = false -> num_results r = 0 /\ found r = false).
Proof.
  unfold result_of. destruct (classify o) as [[s n] err]. cbn.
  destruct s; cbn.
  - rewrite Z.ltb_lt. split; [tauto | discriminate].
  - split; [split; [discriminate | intros [? _]; discriminate] | auto].
Qed.

(* ------------------------------------------------------------------ *)
(** *** The summary *)

Lemma only_prints_ret : only_prints (ret tt).
Proof. intros w. exists w, []. split; [reflexivity | symmetry; apply List.app_nil_r]. Qed.

Lemma only_prints_print (s : string) : only_prints (print s).
Proof. intros w. rewrite print_run. eexists. exists [wide s]. split; reflexivity. Qed.

Lemma only_prints_bind (m : M unit) (k : unit -> M unit) :
  only_prints m -> only_prints (k tt) -> only_prints (bind m k).
Proof.
  intros Hm Hk w. destruct (Hm w) as (w1 & l1 & E1 & S1).
  destruct (Hk w1) as (w2 & l2 & E2 & S2).
  exists w2, (l1 ++ l2). unfold bind. rewrite E1, E2. split; [reflexivity|].
  rewrite S2, S1, List.app_assoc. reflexivity.
Qed.

Lemma only_prints_for_each {A} (l : list A) (body : A -> M unit) :
  (forall x, only_prints (body x)) -> only_prints (for_each l body).
Proof.
  intros Hb. induction l as [|x l IH]; cbn [for_each]; [apply only_prints_ret|].
  apply only_prints_bind; [apply Hb | exact IH].
Qed.

Lemma rate_line_run {A} (found total : Z) (k : unit -> M A) (w : World) :
  bind (let* line :=
          (if 0 <? total
           then
             let* ratio := true_divide found total in
             ret ("Success rate: " +:+ format_1f (float_mul ratio (float_of_int 100)) +:+ "%")
           else ret "N/A") in
        print line) k w
  = k tt (set_stdout (fun o => o ++ [rate_line found total]) w).
Proof.
  unfold rate_line, true_divide.
  destruct (0 <? total) eqn:E; [|cbv [bind ret]; rewrite print_run; reflexivity].
  apply Z.ltb_lt in E. destruct (total =? 0) eqn:E0; [apply Z.eqb_eq in E0; lia|].
  cbv [bind ret]. rewrite print_run. reflexivity.
Qed.

Lemma count_if_cons {A} (p : A -> bool) (x : A) (l : list A) :
  count_if p (x :: l) = (if p x then 1 else 0) + count_if p l.
Proof.
  unfold count_if, len. cbn [List.filter]. destruct (p x); cbn [length]; lia.
Qed.

(** With found implying success, what is neither found nor an error is a
    lookup that went through and found nothing. *)
Lemma not_found_count (results : list CheckResult) :
  Forall (fun r => found r = true -> success r = true) results ->
  len results - count_if found results - count_if (fun r => negb (success r)) results
  = count_if (fun r => success r && negb (found r)) results.
Proof.
  induction 1 as [|r rs Hr _ IH].
  - reflexivity.
  - rewrite !count_if_cons. unfold len in *. cbn [length]. rewrite Nat2Z.inj_succ.
    destruct (found r), (success r); cbn [negb andb];
      first [lia | specialize (Hr eq_refl); discriminate].
Qed.

Lemma str_int_digit (d : Z) : 0 <= d < 10 -> String.length (str_int d) = 1%nat.
Proof.
  intros H.
  assert (d = 0 \/ d = 1 \/ d = 2 \/ d = 3 \/ d = 4 \/ d = 5 \/ d = 6 \/ d = 7 \/
          d = 8 \/ d = 9) as Hd by lia.
  repeat (destruct Hd as [->|Hd]; [reflexivity|]). subst d. reflexivity.
Qed.

Lemma div_half_even_nearest (a b : Z) :
  0 < b -> Z.abs (2 * (a - div_half_even a b * b)) <= b.
Proof.
  intros Hb. unfold div_half_even.
  pose proof (Z.div_mod a b ltac:(lia)) as Hdm.
  pose proof (Z.mod_pos_bound a b Hb) as Hm.
  destruct (Z.compare_spec (2 * (a mod b)) b) as [E|E|E];
    [destruct (Z.even (a / b))| |]; nia.
Qed.

(** The digits printed are the tenths nearest to the value of the float. *)
Lemma tenths_nearest (m : positive) (e : Z) :
  (0 <= e -> tenths m e = 10 * Zpos m * 2 ^ e) /\
  (e < 0 -> Z.abs (2 * (10 * Zpos m - tenths m e * 2 ^ (- e))) <= 2 ^ (- e)).
Proof.
  unfold tenths. split; intros H.
  - apply Z.leb_le in H. rewrite H. reflexivity.
  - destruct (0 <=? e) eqn:E; [apply Z.leb_le in E; lia|].
    apply div_half_even_nearest. apply Z.pow_pos_nonneg; lia.
Qed.

(* ================================================================== *)
(** ** The claims *)




(** C2. In every result of a batch run, found holds exactly when success holds
    and the number of results is positive; a failed lookup has no results and
    is not found. *)
Theorem C2_found_iff_success_and_results
    (path : string) (output_file : option string) (w w' : World)
    (results : list CheckResult) (r : CheckResult) :
  check_bibtex_file path output_file w = (inr results, w') ->
  In r results ->
  (found r = true <-> success r = true /\ 0 < num_results r) /\
  (success r = false -> num_results r = 0 /\ found r = false).
Proof.
  intros Hrun Hin.
  destruct (bibtex_files w path) as [e|entries] eqn:Hload.
  - destruct (check_bibtex_file_unloaded path output_file w e Hload) as (w2 & H2).
    rewrite H2 in Hrun. injection Hrun as <- _. destruct Hin.
  - destruct (check_bibtex_file_returned path output_file w entries results w' Hload Hrun)
      as (-> & _).
    revert r Hin. apply List.Forall_forall, batch_results_Forall.
    intros i e n url. apply result_of_invariant.
Qed.

Lemma C2_witness :
  let r := result_of 1 vaswani (offline 0%nat (scholar_url (build_search_query vaswani))) in
  (found r = true <-> success r = true /\ 0 < num_results r) /\
  (success r = false -> num_results r = 0 /\ found r = false).
Proof.
  refine (C2_found_iff_success_and_results "refs.bib" None
            (world_with [vaswani; smith] offline quiet_disk)
            (snd (check_bibtex_file "refs.bib" None
                    (world_with [vaswani; smith] offline quiet_disk)))
            (batch_results offline 0 1 [vaswani; smith]) _ _ _).
  - vm_compute. reflexivity.
  - left. reflexivity.
Defined.

(** C3 (as the code has it). For a status-200 response whose body the parser
    accepts, the classifier returns success with an empty error. The result
    blocks are those of the primary marker, and those of the secondary marker
    only if the primary yields none. The count is 0 when no block is found or
    when some div has a string holding the no-results phrase in any letter
    case; otherwise it is the number K of blocks. *)
Theorem C3_status_200_classification (q : string) (w : World) (soup : list node) :
  scholar w (length (requested w)) (scholar_url q) = inr (ok_page soup) ->
  exists n,
    search_google_scholar q w = (inr (true, n, EmptyString), after_lookup q w) /\
    (find_all soup "div" "gs_r gs_or gs_scl" <> [] ->
     result_blocks soup = find_all soup "div" "gs_r gs_or gs_scl") /\
    (find_all soup "div" "gs_r gs_or gs_scl" = [] ->
     result_blocks soup = find_all soup "div" "gs_ri") /\
    (no_results_marker soup \/ result_blocks soup = [] -> n = 0) /\
    (~ no_results_marker soup -> result_blocks soup <> [] ->
     n = len (result_blocks soup) /\ 1 <= n).
Proof.
  intros Hget. rewrite search_google_scholar_run, Hget. cbn [classify ok_page status_code content].
  change (200 =? 429) with false. change (negb (200 =? 200)) with false. cbv iota.
  destruct (classify_page_shape soup) as (n & Hn & Hzero & Hk).
  exists n. rewrite Hn. split; [reflexivity|].
  unfold result_blocks at 1 2.
  split; [|split; [|split]].
  - destruct (find_all soup "div" "gs_r gs_or gs_scl"); [congruence | reflexivity].
  - intros ->. reflexivity.
  - exact Hzero.
  - intros Hno Hne. split; [apply Hk; assumption|].
    rewrite (Hk Hno Hne). unfold len. destruct (result_blocks soup); [congruence|].
    cbn [length]. lia.
Qed.

Lemma C3_witness :
  exists n,
    search_google_scholar "q" (world_with [] (serving (ok_page page_hit_and_text)) quiet_disk)
    = (inr (true, n, EmptyString),
       after_lookup "q" (world_with [] (serving (ok_page page_hit_and_text)) quiet_disk)) /\
    (find_all page_hit_and_text "div" "gs_r gs_or gs_scl" <> [] ->
     result_blocks page_hit_and_text = find_all page_hit_and_text "div" "gs_r gs_or gs_scl") /\
    (find_all page_hit_and_text "div" "gs_r gs_or gs_scl" = [] ->
     result_blocks page_hit_and_text = find_all page_hit_and_text "div" "gs_ri") /\
    (no_results_marker page_hit_and_text \/ result_blocks page_hit_and_text = [] -> n = 0) /\
    (~ no_results_marker page_hit_and_text -> result_blocks page_hit_and_text <> [] ->
     n = len (result_blocks page_hit_and_text) /\ 1 <= n).
Proof.
  exact (C3_status_200_classification "q"
           (world_with [] (serving (ok_page page_hit_and_text)) quiet_disk)
           page_hit_and_text eq_refl).
Defined.

(** C3 as stated fails. With one result block and a div that holds the
    no-results sentence, K = 1 block is found and the count returned is 0.
    With one result block and the sentence in a paragraph, the phrase is in
    the page text and the count returned is 1, not 0. A status-200 body that
    the parser rejects gives success = false. *)
Lemma C3_counterexample :
  (len (result_blocks page_hit_and_marker) = 1 /\
   fst (search_google_scholar "q"
          (world_with [] (serving (ok_page page_hit_and_marker)) quiet_disk))
   = inr (true, 0, EmptyString)) /\
  (re_search_i no_results_phrase (page_text page_hit_and_text) = true /\
   fst (search_google_scholar "q"
          (world_with [] (serving (ok_page page_hit_and_text)) quiet_disk))
   = inr (true, 1, EmptyString)) /\
  fst (search_google_scholar "q"
         (world_with [] (serving {| status_code := 200;
                                    content := Rejected "unknown status keyword" |})
                     quiet_disk))
  = inr (false, 0, "Error: unknown status keyword").
Proof. vm_compute. repeat split. Qed.

(** C4. A lookup that does not yield a status-200 response is classified as a
    failure with no results: status 429 with a message that contains
    Rate limited, any other status with HTTP and the code, a transport
    failure with Network error and its detail (and any other exception with
    Error and its detail). *)
Theorem C4_failed_lookup_classification (q : string) (w : World) :
  (forall r, scholar w (length (requested w)) (scholar_url q) = inr r ->
             status_code r <> 200) ->
  exists msg,
    search_google_scholar q w = (inr (false, 0, msg), after_lookup q w) /\
    match scholar w (length (requested w)) (scholar_url q) with
    | inl (RequestException d) => msg = "Network error: " +:+ d
    | inl (Exception d) => msg = "Error: " +:+ d
    | inr r =>
        if status_code r =? 429 then contains "Rate limited" msg = true
        else msg = "HTTP " +:+ str_int (status_code r)
    end.
Proof.
  intros Hnot. rewrite search_google_scholar_run.
  destruct (scholar w (length (requested w)) (scholar_url q)) as [[d|d]|r]; cbn [classify].
  - eexists. split; reflexivity.
  - eexists. split; reflexivity.
  - destruct (status_code r =? 429) eqn:E429.
    + eexists. split; reflexivity.
    + specialize (Hnot r eq_refl). apply Z.eqb_neq in Hnot. rewrite Hnot. cbn [negb].
      eexists. split; reflexivity.
Qed.

Lemma C4_witness :
  exists msg,
    search_google_scholar "q" (world_with [] offline quiet_disk)
    = (inr (false, 0, msg), after_lookup "q" (world_with [] offline quiet_disk)) /\
    msg = "Network error: " +:+ "Connection refused".
Proof.
  refine (C4_failed_lookup_classification "q" (world_with [] offline quiet_disk) _).
  intros r H. discriminate H.
Defined.

(** C5. The query of the record with title Attention Is All You Need, author
    Vaswani, A. and others, and year 2017 is the quoted title, then the author
    token of Vaswani, then 2017, joined by single spaces. *)
Theorem C5_end_to_end_query :
  vaswani !! "title" = Some "Attention Is All You Need" /\
  vaswani !! "author" = Some "Vaswani, A. and others" /\
  vaswani !! "year" = Some "2017" /\
  build_search_query vaswani =
  dquote +:+ "Attention Is All You Need" +:+ dquote +:+ " author:" +:+
  dquote +:+ "Vaswani" +:+ dquote +:+ " 2017".
Proof. vm_compute. repeat split. Qed.

(** C6 (as the code has it). The text normalization replaces every character
    that is neither a word character (alphanumeric or underscore) nor
    whitespace by a space, collapses the runs of whitespace to single spaces
    and trims both ends; the result holds word characters and single spaces
    only, the word characters of the input are all kept, in order; and this
    is what is put between quotes for the title. *)
Theorem C6_clean_text_normalization (text : string) :
  clean_text text = strip (collapse_ws (sub_special text)) /\
  chars (sub_special text)
  = List.map (fun c => if is_word c || isspace c then c else space) (chars text) /\
  Forall word_or_space (chars (clean_text text)) /\
  List.filter is_word (chars (clean_text text)) = List.filter is_word (chars text) /\
  build_search_query {[ "title" := text ]} = dquote +:+ clean_text text +:+ dquote.
Proof.
  split; [apply clean_text_pipeline|].
  split; [apply chars_map_chars|].
  split; [apply clean_text_chars|].
  split; [apply clean_text_words|].
  rewrite build_search_query_parts. unfold title_part, author_part, year_part.
  rewrite lookup_singleton_eq, !lookup_singleton_ne by discriminate.
  reflexivity.
Qed.

(** C6 as stated fails: the underscore is neither alphanumeric nor whitespace,
    and the normalization keeps it. *)
Lemma C6_counterexample :
  clean_text "a_b" = "a_b" /\
  In "_"%char (chars (clean_text "a_b")) /\
  isalnum "_"%char = false /\ isspace "_"%char = false.
Proof. vm_compute. repeat split. right. left. reflexivity. Qed.

(** C7. The last name comes from the first author of the list separated by the
    word and between spaces: the text before the first comma, trimmed, when
    that author has a comma, and the final whitespace-separated token
    otherwise. Smith, John and John Smith both give Smith, and the list
    A and B and C gives what A alone gives. The query carries it as the
    author token. *)
Theorem C7_first_author_last_name (author : string) :
  first_author_last_name author
  = (let a := strip (before_first " and " author) in
     if contains "," a then strip (before_first "," a)
     else List.last (split_ws a) EmptyString) /\
  first_author_last_name author = first_author_last_name (before_first " and " author) /\
  first_author_last_name "Smith, John" = "Smith" /\
  first_author_last_name "John Smith" = "Smith" /\
  first_author_last_name "A and B and C" = first_author_last_name "A" /\
  build_search_query {[ "author" := author ]}
  = (if is_empty (first_author_last_name author) then EmptyString
     else "author:" +:+ dquote +:+ first_author_last_name author +:+ dquote).
Proof.
  split; [apply first_author_last_name_spec|].
  split.
  { rewrite !first_author_last_name_spec, before_first_idem by reflexivity. reflexivity. }
  split; [reflexivity|]. split; [reflexivity|]. split; [reflexivity|].
  rewrite build_search_query_parts. unfold title_part, author_part, year_part.
  rewrite lookup_singleton_eq, !lookup_singleton_ne by discriminate.
  destruct (is_empty (first_author_last_name author)); reflexivity.
Qed.

(** C8. The summary never raises, also on no results at all. Its lines give
    the total, the found count, the not-found count as total minus found minus
    errors, the error count, and then the success rate: N/A when the total is
    0, where no division takes place, and otherwise found/total*100 in binary64
    arithmetic, printed with exactly one digit after the point, the tenths
    nearest to the value. For results in which found implies success, the
    not-found count is the number of lookups that went through without a
    hit. *)
Theorem C8_summary_counts_and_rate (results : list CheckResult) (w : World) :
  let total := len results in
  let found_count := count_if found results in
  let errors := count_if (fun r => negb (success r)) results in
  (exists w' rest,
     print_summary results w = (inr tt, w') /\
     stdout w' = stdout w ++
       [ newline +:+ repeat_str "=" 50; "SUMMARY"; repeat_str "=" 50;
         "Total entries checked: " +:+ str_int total;
         "Found in Google Scholar: " +:+ str_int found_count;
         "Not found: " +:+ str_int (total - found_count - errors);
         "Errors: " +:+ str_int errors;
         rate_line found_count total ] ++ rest) /\
  (total = 0 -> rate_line found_count total = "N/A") /\
  (0 < total ->
   rate_line found_count total
   = "Success rate: " +:+
     format_1f (float_mul (float_div found_count total) (float_of_int 100)) +:+ "%") /\
  (forall s m e,
     format_1f (S754_finite s m e)
     = sign_str s +:+ str_int (tenths m e / 10) +:+ "." +:+ str_int (tenths m e mod 10) /\
     String.length (str_int (tenths m e mod 10)) = 1%nat /\
     (0 <= e -> tenths m e = 10 * Zpos m * 2 ^ e) /\
     (e < 0 -> Z.abs (2 * (10 * Zpos m - tenths m e * 2 ^ (- e))) <= 2 ^ (- e))) /\
  (Forall (fun r => found r = true -> success r = true) results ->
   total - found_count - errors
   = count_if (fun r => success r && negb (found r)) results) /\
  success_rate 1 3 = "33.3" /\ success_rate 2 3 = "66.7" /\ success_rate 1 8 = "12.5" /\
  success_rate 0 5 = "0.0" /\ success_rate 7 7 = "100.0".
Proof.
  intros total found_count errors.
  split; [|split; [|split; [|split; [|split]]]].
  - unfold print_summary. fold total found_count errors. cbv zeta.
    rewrite !bind_print, rate_line_run.
    match goal with |- context [?m ?w0 = (inr tt, _)] =>
      assert (only_prints m) as Hrest
    end.
    { destruct (0 <? errors); [|apply only_prints_ret].
      apply only_prints_bind; [apply only_prints_print|].
      apply only_prints_for_each. intros r.
      destruct (negb (success r)); [apply only_prints_print | apply only_prints_ret]. }
    match goal with |- context [?m ?w0 = (inr tt, _)] =>
      destruct (Hrest w0) as (w' & rest & Hrun & Hout)
    end.
    exists w', rest. split; [exact Hrun|]. rewrite Hout. cbn [stdout set_stdout].
    rewrite <- !List.app_assoc. reflexivity.
  - intros H0. unfold rate_line. rewrite H0. reflexivity.
  - intros Hpos. unfold rate_line. apply Z.ltb_lt in Hpos. rewrite Hpos. reflexivity.
  - intros s m e. split; [reflexivity|]. split.
    + apply str_int_digit. apply Z.mod_pos_bound. lia.
    + apply tenths_nearest.
  - apply not_found_count.
  - vm_compute. repeat split.
Qed.

Lemma C8_witness :
  rate_line (count_if found []) (len ([] : list CheckResult)) = "N/A" /\
  (let results := batch_results offline 0 1 [vaswani; smith] in
   len results - count_if found results - count_if (fun r => negb (success r)) results
   = count_if (fun r => success r && negb (found r)) results).
Proof.
  split.
  - pose proof (C8_summary_counts_and_rate [] (world_with [] offline quiet_disk)) as H.
    cbv zeta in H. destruct H as (_ & Hna & _).
    exact (Hna eq_refl).
  - intros results.
    pose proof (C8_summary_counts_and_rate results (world_with [] offline quiet_disk)) as H.
    cbv zeta in H. destruct H as (_ & _ & _ & _ & Hcount & _).
    apply Hcount. repeat constructor; intros Hf; vm_compute in Hf; discriminate Hf.
Defined.



(** C10. A record without an ID field gets the identifier entry_ followed by
    its 1-based position in the input; a record without a title field gets
    the title No title, and its query is made of the author and year parts
    alone. *)
Theorem C10_synthesized_id_and_title
    (path : string) (output_file : option string) (w w' : World)
    (entries : list (gmap string string)) (results : list CheckResult)
    (k : nat) (e : gmap string string) (r : CheckResult) :
  bibtex_files w path = inr entries ->
  check_bibtex_file path output_file w = (inr results, w') ->
  entries !! k = Some e ->
  results !! k = Some r ->
  (e !! "ID" = None -> entry_id r = "entry_" +:+ str_int (Z.of_nat k + 1)) /\
  (e !! "title" = None ->
   title r = "No title" /\ query r = join " " (author_part e ++ year_part e)).
Proof.
  intros Hload Hrun Hk Hr.
  destruct (check_bibtex_file_returned path output_file w entries results w' Hload Hrun)
    as (-> & _).
  rewrite (batch_results_lookup _ _ _ _ _ _ Hk) in Hr. injection Hr as <-.
  destruct (result_of_fields (1 + Z.of_nat k) e
              (scholar w (length (requested w) + k)%nat (scholar_url (build_search_query e))))
    as (Hid & Htitle & Hquery & _).
  split.
  - intros Hnone. rewrite Hid, Hnone. cbn [default].
    replace (1 + Z.of_nat k) with (Z.of_nat k + 1) by lia. reflexivity.
  - intros Hnone. rewrite Htitle, Hquery, build_search_query_parts.
    unfold title_part. rewrite Hnone. split; reflexivity.
Qed.

Lemma C10_witness :
  let r := result_of 2 smith (offline 1%nat (scholar_url (build_search_query smith))) in
  entry_id r = "entry_2" /\ title r = "No title" /\
  query r = "author:" +:+ dquote +:+ "Smith" +:+ dquote.
Proof.
  intros r.
  destruct (C10_synthesized_id_and_title "refs.bib" None
              (world_with [vaswani; smith] offline quiet_disk)
              (snd (check_bibtex_file "refs.bib" None
                      (world_with [vaswani; smith] offline quiet_disk)))
              [vaswani; smith] (batch_results offline 0 1 [vaswani; smith])
              1%nat smith r eq_refl)
    as [Hid Htitle].
  - vm_compute. reflexivity.
  - reflexivity.
  - reflexivity.
  - split; [exact (Hid eq_refl)|].
    destruct (Htitle eq_refl) as [Ht Hq]. split; [exact Ht|].
    rewrite Hq. reflexivity.
Defined.

(* ================================================================== *)
(** ** Further properties of the query builder *)

Lemma rstrip_empty_iff (s : string) :
  is_empty (rstrip s) = forallb isspace (chars s).
Proof.
  induction s as [|c s IH]; [reflexivity|].
  cbn [rstrip chars forallb]. rewrite <- IH.
  destruct (isspace c), (is_empty (rstrip s)); reflexivity.
Qed.

Lemma collapse_true_empty_iff (s : string) :
  is_empty (collapse_ws_from true s) = forallb isspace (chars s).
Proof.
  induction s as [|c s IH]; [reflexivity|].
  cbn [collapse_ws_from chars forallb]. destruct (isspace c); [exact IH | reflexivity].
Qed.

(** Collapsing the runs of whitespace and trimming the right end commute. *)
Lemma collapse_rstrip (b : bool) (s : string) :
  collapse_ws_from b (rstrip s) = rstrip (collapse_ws_from b s).
Proof.
  revert b. induction s as [|c s IH]; intros b; [reflexivity|].
  cbn [rstrip]. destruct (isspace c) eqn:E; cbn [andb].
  - destruct (is_empty (rstrip s)) eqn:Er.
    + cbn [collapse_ws_from]. rewrite E.
      assert (rstrip (collapse_ws_from true s) = EmptyString) as H0.
      { rewrite <- IH, (is_empty_true _ Er). reflexivity. }
      destruct b; [symmetry; exact H0|].
      cbn [rstrip]. rewrite H0. reflexivity.
    + cbn [collapse_ws_from]. rewrite E. destruct b; [apply IH|].
      cbn [rstrip]. rewrite <- IH.
      replace (is_empty (collapse_ws_from true (rstrip s))) with false.
      * reflexivity.
      * rewrite collapse_true_empty_iff, <- rstrip_empty_iff, rstrip_idem. congruence.
  - cbn [collapse_ws_from]. rewrite E, (rstrip_nonspace c _ E), IH. reflexivity.
Qed.

Lemma collapse_idem (b : bool) (s : string) :
  collapse_ws_from b (collapse_ws_from b s) = collapse_ws_from b s.
Proof.
  revert b. induction s as [|c s IH]; intros b; [reflexivity|].
  cbn [collapse_ws_from]. destruct (isspace c) eqn:E.
  - destruct b; [apply IH|]. cbn [collapse_ws_from]. change (isspace space) with true; cbv iota; rewrite IH. reflexivity.
  - cbn [collapse_ws_from]. rewrite E, IH. reflexivity.
Qed.

Lemma collapse_clean (s : string) :
  starts_clean s -> collapse_ws_from false s = collapse_ws_from true s.
Proof. destruct s as [|c s]; [reflexivity|]. cbn. intros ->. reflexivity. Qed.

Lemma clean_text_alt (text : string) :
  clean_text text = rstrip (collapse_ws_from true (sub_special text)).
Proof.
  rewrite clean_text_pipeline. unfold strip, collapse_ws.
  rewrite lstrip_collapse. reflexivity.
Qed.

Lemma map_chars_id (f : ascii -> ascii) (s : string) :
  Forall (fun c => f c = c) (chars s) -> map_chars f s = s.
Proof.
  induction s as [|c s IH]; [reflexivity|]. cbn [chars map_chars].
  intros H. inversion H as [|? ? Hc Hs]; subst. rewrite Hc, (IH Hs). reflexivity.
Qed.

Lemma sub_special_clean (text : string) :
  sub_special (clean_text text) = clean_text text.
Proof.
  unfold sub_special. apply map_chars_id.
  eapply List.Forall_impl; [|apply clean_text_chars].
  intros c [Hw| ->]; [rewrite Hw; reflexivity | reflexivity].
Qed.

Lemma clean_text_starts_clean (text : string) : starts_clean (clean_text text).
Proof. rewrite clean_text_alt. apply rstrip_clean, collapse_true_clean. Qed.

Lemma clean_text_rstrip (text : string) : rstrip (clean_text text) = clean_text text.
Proof. rewrite clean_text_alt. apply rstrip_idem. Qed.

Lemma clean_text_collapse (text : string) :
  collapse_ws_from true (clean_text text) = clean_text text.
Proof. rewrite clean_text_alt, collapse_rstrip, collapse_idem. reflexivity. Qed.

(** X1. Cleaning is a normalization: a cleaned text is left as it is by a
    second cleaning, by the trimming of its ends and by the collapse of its
    runs of whitespace. *)
Theorem X1_clean_text_idempotent (text : string) :
  clean_text (clean_text text) = clean_text text /\
  strip (clean_text text) = clean_text text /\
  collapse_ws (clean_text text) = clean_text text.
Proof.
  assert (strip (clean_text text) = clean_text text) as Hs.
  { unfold strip. rewrite (lstrip_clean _ (clean_text_starts_clean text)).
    apply clean_text_rstrip. }
  assert (collapse_ws (clean_text text) = clean_text text) as Hc.
  { unfold collapse_ws. rewrite (collapse_clean _ (clean_text_starts_clean text)).
    apply clean_text_collapse. }
  split; [|split; assumption].
  rewrite (clean_text_alt (clean_text text)).
  rewrite sub_special_clean, clean_text_collapse. apply clean_text_rstrip.
Qed.

Lemma filter_word_nil_spaces (s : string) :
  Forall word_or_space (chars s) ->
  List.filter is_word (chars s) = [] -> forallb isspace (chars s) = true.
Proof.
  induction s as [|c s IH]; [reflexivity|]. cbn [chars List.filter forallb].
  intros H Hf. inversion H as [|? ? Hc Hs]; subst.
  destruct Hc as [Hw| ->].
  - rewrite Hw in Hf. discriminate.
  - change (is_word space) with false in Hf. cbv iota in Hf.
    change (isspace space) with true. cbn [andb]. exact (IH Hs Hf).
Qed.

(** X2. A text is cleaned to the empty string exactly when it holds no word
    character; the title part of the query is then a pair of quotes with
    nothing between them. *)
Theorem X2_clean_text_empty_iff (text : string) :
  (clean_text text = EmptyString <-> List.filter is_word (chars text) = []) /\
  (List.filter is_word (chars text) = [] ->
   build_search_query {[ "title" := text ]} = dquote +:+ dquote).
Proof.
  assert (List.filter is_word (chars text) = [] -> clean_text text = EmptyString) as Hback.
  { intros Hf. rewrite <- clean_text_words in Hf.
    apply filter_word_nil_spaces in Hf; [|apply clean_text_chars].
    rewrite <- rstrip_empty_iff, clean_text_rstrip in Hf.
    apply is_empty_true, Hf. }
  split; [split; [|exact Hback]|].
  - intros H. rewrite <- clean_text_words, H. reflexivity.
  - intros Hf. rewrite build_search_query_parts. unfold title_part, author_part, year_part.
    rewrite lookup_singleton_eq, !lookup_singleton_ne by discriminate.
    rewrite (Hback Hf). reflexivity.
Qed.

Lemma X2_witness :
  clean_text "?! -- ..." = EmptyString /\
  build_search_query {[ "title" := "?! -- ..." ]} = dquote +:+ dquote.
Proof.
  pose proof (X2_clean_text_empty_iff "?! -- ...") as [[_ Hempty] Hquery].
  split; [apply Hempty | apply Hquery]; reflexivity.
Defined.

Lemma chars_app (s t : string) : chars (s +:+ t) = chars s ++ chars t.
Proof.
  induction s as [|c s IH]; [reflexivity|].
  rewrite str_app_cons. cbn [chars]. rewrite IH. reflexivity.
Qed.

Lemma contains_char (c : ascii) (s : string) :
  contains (String c EmptyString) s = existsb (Ascii.eqb c) (chars s).
Proof.
  unfold contains. induction s as [|b s IH]; [reflexivity|].
  cbn [find startswith chars existsb]. destruct (Ascii.eqb c b); cbn [andb orb].
  - destruct s; reflexivity.
  - rewrite <- IH. destruct (find (String c EmptyString) s); reflexivity.
Qed.

Lemma no_char_Forall (c : ascii) (s : string) :
  contains (String c EmptyString) s = false <-> Forall (fun b => b <> c) (chars s).
Proof.
  rewrite contains_char. induction (chars s) as [|b l IH]; cbn [existsb].
  - split; [constructor | reflexivity].
  - rewrite orb_false_iff, IH, Ascii.eqb_neq. split.
    + intros [Hb Hl]. constructor; [congruence | exact Hl].
    + intros H. inversion H; subst. split; [congruence | assumption].
Qed.

Lemma strip_chars_Forall (P : ascii -> Prop) (s : string) :
  Forall P (chars s) -> Forall P (chars (strip s)).
Proof. intros H. unfold strip. apply rstrip_chars_Forall, lstrip_chars_Forall, H. Qed.

Lemma lstrip_starts_clean (s : string) : starts_clean (lstrip s).
Proof.
  induction s as [|c s IH]; cbn [lstrip]; [exact I|].
  destruct (isspace c) eqn:E; [exact IH | exact E].
Qed.

Lemma strip_idem (s : string) : strip (strip s) = strip s.
Proof. unfold strip at 2. apply strip_rstrip_clean, lstrip_starts_clean. Qed.

Lemma rstrip_nonspace_id (s : string) :
  Forall (fun c => isspace c = false) (chars s) -> rstrip s = s.
Proof.
  induction s as [|c s IH]; [reflexivity|]. cbn [chars]. intros H.
  inversion H as [|? ? Hc Hs]; subst.
  rewrite (rstrip_nonspace c s Hc), (IH Hs). reflexivity.
Qed.

Lemma strip_nonspace_id (s : string) :
  Forall (fun c => isspace c = false) (chars s) -> strip s = s.
Proof.
  intros H. unfold strip. rewrite lstrip_clean.
  - apply rstrip_nonspace_id, H.
  - destruct s as [|c s]; [exact I|]. inversion H; assumption.
Qed.

(** The tokens of [split()] are made of characters of the text, and hold no
    whitespace. *)
Lemma split_ws_from_chars (P : ascii -> Prop) (s w : string) :
  Forall P (chars w) -> Forall P (chars s) ->
  Forall (fun t => Forall P (chars t)) (split_ws_from w s).
Proof.
  revert w. induction s as [|c s IH]; intros w Hw Hs; cbn [split_ws_from].
  - destruct (is_empty w); repeat constructor. exact Hw.
  - cbn [chars] in Hs. inversion Hs as [|? ? Hc Hs']; subst.
    destruct (isspace c).
    + destruct (is_empty w); [apply IH; [constructor | exact Hs']|].
      constructor; [exact Hw | apply IH; [constructor | exact Hs']].
    + apply IH; [|exact Hs']. rewrite chars_app. apply Forall_app. split; [exact Hw|].
      repeat constructor. exact Hc.
Qed.

Lemma split_ws_from_nonspace (s w : string) :
  Forall (fun c => isspace c = false) (chars w) ->
  Forall (fun t => Forall (fun c => isspace c = false) (chars t)) (split_ws_from w s).
Proof.
  revert w. induction s as [|c s IH]; intros w Hw; cbn [split_ws_from].
  - destruct (is_empty w); repeat constructor. exact Hw.
  - destruct (isspace c) eqn:E.
    + destruct (is_empty w); [apply IH; constructor|].
      constructor; [exact Hw | apply IH; constructor].
    + apply IH. rewrite chars_app. apply Forall_app. split; [exact Hw|].
      repeat constructor. exact E.
Qed.

Lemma last_Forall {A} (Q : A -> Prop) (l : list A) (d : A) :
  Forall Q l -> Q d -> Q (List.last l d).
Proof.
  intros Hl Hd. induction Hl as [|x l Hx Hl IH]; [exact Hd|].
  destruct l; [exact Hx | exact IH].
Qed.

(** X3. The last name put in the query is well formed: it holds no comma, and
    no whitespace at its ends; when the first author is written without a
    comma it is a single token, with no whitespace at all. *)
Theorem X3_last_name_well_formed (author : string) :
  contains "," (first_author_last_name author) = false /\
  strip (first_author_last_name author) = first_author_last_name author /\
  (contains "," (strip (before_first " and " author)) = false ->
   Forall (fun c => isspace c = false) (chars (first_author_last_name author))).
Proof.
  rewrite first_author_last_name_spec. unfold last_name_of.
  set (a := strip (before_first " and " author)).
  destruct (contains "," a) eqn:E.
  - split; [|split; [apply strip_idem | discriminate]].
    apply no_char_Forall, strip_chars_Forall, no_char_Forall.
    unfold contains. rewrite find_before_first by reflexivity. reflexivity.
  - assert (Forall (fun c => isspace c = false) (chars (List.last (split_ws a) EmptyString)))
      as Hns.
    { apply (last_Forall (fun t => Forall (fun c => isspace c = false) (chars t)));
        [apply split_ws_from_nonspace; constructor | constructor]. }
    split; [|split; [apply strip_nonspace_id, Hns | intros _; exact Hns]].
    apply no_char_Forall.
    apply (last_Forall (fun t => Forall (fun b => b <> ","%char) (chars t)));
      [|constructor].
    apply split_ws_from_chars; [constructor | apply no_char_Forall, E].
Qed.

Lemma X3_witness :
  Forall (fun c => isspace c = false) (chars (first_author_last_name "Ada  Lovelace and B")).
Proof.
  apply (X3_last_name_well_formed "Ada  Lovelace and B"). reflexivity.
Defined.

Lemma join_single_empty (parts : list string) :
  join " " parts = EmptyString <-> parts = [] \/ parts = [EmptyString].
Proof.
  destruct parts as [|p [|q rest]]; cbn [join].
  - split; auto.
  - split; [intros ->; auto | intros [H|H]; [discriminate | congruence]].
  - split; [|intros [H|H]; discriminate].
    destruct p; intros H; discriminate H.
Qed.

(** X4. The query is empty exactly when the entry has no title, has no author
    or an author without a last name, and has no year or an empty one; no
    other field of the entry is read. *)
Theorem X4_empty_query_iff (entry : gmap string string) :
  build_search_query entry = EmptyString <->
  entry !! "title" = None /\
  (forall a, entry !! "author" = Some a -> first_author_last_name a = EmptyString) /\
  (forall y, entry !! "year" = Some y -> y = EmptyString).
Proof.
  rewrite build_search_query_parts, join_single_empty.
  unfold title_part, author_part, year_part.
  destruct (entry !! "title") as [t|].
  { split; [intros [H|H]; discriminate H | intros [H _]; discriminate H]. }
  destruct (entry !! "author") as [a|].
  - destruct (is_empty (first_author_last_name a)) eqn:Ea.
    + apply is_empty_true in Ea. destruct (entry !! "year") as [y|]; cbn [app].
      * split.
        -- intros [H|H]; [discriminate H|]. injection H as ->.
           repeat split; intros ? [= <-]; auto.
        -- intros (_ & _ & Hy). right. rewrite (Hy y eq_refl). reflexivity.
      * split; [|auto]. intros _. repeat split; [intros ? [= <-]; exact Ea | discriminate].
    + split.
      * intros [H|H]; [discriminate H|].
        destruct (entry !! "year"); cbn [app] in H; discriminate H.
      * intros (_ & Ha & _). rewrite (Ha a eq_refl) in Ea. discriminate Ea.
  - destruct (entry !! "year") as [y|]; cbn [app].
    + split.
      * intros [H|H]; [discriminate H|]. injection H as ->.
        repeat split; [discriminate | intros ? [= <-]; reflexivity].
      * intros (_ & _ & Hy). right. rewrite (Hy y eq_refl). reflexivity.
    + split; [|auto]. intros _. repeat split; discriminate.
Qed.

(* ================================================================== *)
(** ** Further properties of the classifier and of the batch *)

(** X5. A lookup never raises: whatever its pause and its GET do, it returns
    a triple, the one that classifies their outcome; it prints nothing and
    performs no file operation. *)
Theorem X5_lookup_effects (q : string) (w : World) :
  exists w',
    search_google_scholar q w
    = (inr (classify (scholar w (length (requested w)) (scholar_url q))), w') /\
    stdout w' = stdout w /\ stdout_unicode w' = stdout_unicode w /\
    files w' = files w /\ disk_ops w' = disk_ops w.
Proof.
  eexists. split; [apply search_google_scholar_run|].
  repeat split.
Qed.

Lemma classify_error_iff (o : exn + response) :
  let '(s, n, err) := classify o in
  (s = true <-> err = EmptyString) /\ 0 <= n /\ (s = false -> n = 0).
Proof.
  destruct o as [[d|d]|r]; cbn [classify].
  - repeat split; try discriminate; lia.
  - repeat split; try discriminate; lia.
  - destruct (status_code r =? 429); [repeat split; try discriminate; lia|].
    destruct (negb (status_code r =? 200)); [repeat split; try discriminate; lia|].
    destruct (content r) as [d|soup]; [repeat split; try discriminate; lia|].
    unfold classify_page.
    destruct (found_one _ || _); repeat split; try discriminate; unfold len; lia.
Qed.

Lemma result_of_error_iff i e o :
  (success (result_of i e o) = true <-> error (result_of i e o) = EmptyString) /\
  0 <= num_results (result_of i e o).
Proof.
  pose proof (classify_error_iff o) as H. unfold result_of.
  destruct (classify o) as [[s n] err]. cbn.
  destruct H as (Hiff & Hn & _). split; [exact Hiff|].
  destruct s; [exact Hn | lia].
Qed.

(** The results of a run are the records of its batch, or none at all. *)
Lemma check_bibtex_file_results path output_file w results w' :
  check_bibtex_file path output_file w = (inr results, w') ->
  results = [] \/
  exists entries, bibtex_files w path = inr entries /\
                  results = batch_results (scholar w) (length (requested w)) 1 entries.
Proof.
  intros Hrun. destruct (bibtex_files w path) as [e|entries] eqn:Hload.
  - destruct (check_bibtex_file_unloaded path output_file w e Hload) as (w2 & H2).
    rewrite H2 in Hrun. injection Hrun as <- _. left. reflexivity.
  - destruct (check_bibtex_file_returned path output_file w entries results w' Hload Hrun)
      as (-> & _).
    right. eauto.
Qed.

(** X6. In every result of a run the error message is empty exactly when the
    lookup succeeded, and the number of results is never negative. *)
Theorem X6_error_iff_failure
    (path : string) (output_file : option string) (w w' : World)
    (results : list CheckResult) (r : CheckResult) :
  check_bibtex_file path output_file w = (inr results, w') ->
  In r results ->
  (success r = true <-> error r = EmptyString) /\ 0 <= num_results r.
Proof.
  intros Hrun Hin.
  destruct (check_bibtex_file_results _ _ _ _ _ Hrun) as [->|(entries & _ & ->)].
  - destruct Hin.
  - revert r Hin. apply List.Forall_forall, batch_results_Forall.
    intros i e n url. apply result_of_error_iff.
Qed.

Lemma X6_witness :
  let r := result_of 1 vaswani (offline 0%nat (scholar_url (build_search_query vaswani))) in
  (success r = true <-> error r = EmptyString) /\ 0 <= num_results r.
Proof.
  refine (X6_error_iff_failure "refs.bib" None
            (world_with [vaswani; smith] offline quiet_disk)
            (snd (check_bibtex_file "refs.bib" None
                    (world_with [vaswani; smith] offline quiet_disk)))
            (batch_results offline 0 1 [vaswani; smith]) _ _ _).
  - vm_compute. reflexivity.
  - left. reflexivity.
Defined.



(** X8. Without an output file (none, or the empty path) a run performs no
    file operation and leaves every file as it was, whether the file loads or
    not and whether the run returns or ends on an exception. *)
Theorem X8_no_output_no_disk
    (path : string) (output_file : option string) (w : World) :
  output_file = None \/ output_file = Some EmptyString ->
  files (snd (check_bibtex_file path output_file w)) = files w /\
  disk_ops (snd (check_bibtex_file path output_file w)) = disk_ops w.
Proof.
  intros Hout.
  destruct (bibtex_files w path) as [e|entries] eqn:Hload.
  - unfold check_bibtex_file. rewrite bind_print.
    cbn [bibtex_files set_stdout]. rewrite Hload, bind_print. split; reflexivity.
  - destruct (check_bibtex_file_loaded path output_file w entries Hload)
      as (w1 & (_ & _ & _ & Hops & Hfiles)
             & [(w' & _ & _ & Hper & Hrun & _)|(_ & Hrun & _)]); rewrite Hrun; cbn [snd].
    + assert (w' = w1) as ->.
      { destruct Hout as [-> | ->]; cbn in Hper; injection Hper as <-; reflexivity. }
      split; [exact Hfiles | exact Hops].
    + split; [exact Hfiles | exact Hops].
Qed.

Lemma X8_witness :
  let w := latin1_world_with [vaswani; smith] (serving (ok_page page_hit_and_text))
                             locked_disk in
  files (snd (check_bibtex_file "refs.bib" (Some EmptyString) w)) = ∅ /\
  disk_ops (snd (check_bibtex_file "refs.bib" (Some EmptyString) w)) = 0%nat.
Proof.
  exact (X8_no_output_no_disk "refs.bib" (Some EmptyString)
           (latin1_world_with [vaswani; smith] (serving (ok_page page_hit_and_text))
                              locked_disk)
           (or_intror eq_refl)).
Defined.

(** X9. A record that has an ID keeps it as its identifier, whatever its
    position; a record that has a title keeps the title as it is written in
    its result, while its query starts with the cleaned title between
    quotes. *)
Theorem X9_given_id_and_title
    (path : string) (output_file : option string) (w w' : World)
    (entries : list (gmap string string)) (results : list CheckResult)
    (k : nat) (e : gmap string string) (r : CheckResult) :
  bibtex_files w path = inr entries ->
  check_bibtex_file path output_file w = (inr results, w') ->
  entries !! k = Some e ->
  results !! k = Some r ->
  (forall id, e !! "ID" = Some id -> entry_id r = id) /\
  (forall t, e !! "title" = Some t ->
     title r = t /\
     exists rest, query r = dquote +:+ clean_text t +:+ dquote +:+ rest).
Proof.
  intros Hload Hrun Hk Hr.
  destruct (check_bibtex_file_returned path output_file w entries results w' Hload Hrun)
    as (-> & _).
  rewrite (batch_results_lookup _ _ _ _ _ _ Hk) in Hr. injection Hr as <-.
  destruct (result_of_fields (1 + Z.of_nat k) e
              (scholar w (length (requested w) + k)%nat (scholar_url (build_search_query e))))
    as (Hid & Htitle & Hquery & _).
  split.
  - intros id Hsome. rewrite Hid, Hsome. reflexivity.
  - intros t Hsome. rewrite Htitle, Hquery, build_search_query_parts.
    unfold title_part. rewrite Hsome. split; [reflexivity|].
    cbn [app]. destruct (author_part e ++ year_part e) as [|p ps].
    + exists EmptyString. cbn [join]. rewrite ?str_app_assoc, str_app_nil_r. reflexivity.
    + eexists. cbn [join]. rewrite ?str_app_assoc. reflexivity.
Qed.

Lemma X9_witness :
  let r := result_of 1 knuth (offline 0%nat (scholar_url (build_search_query knuth))) in
  entry_id r = "knuth84" /\ title r = "The {TeX}book" /\
  exists rest, query r = dquote +:+ clean_text "The {TeX}book" +:+ dquote +:+ rest.
Proof.
  intros r.
  destruct (X9_given_id_and_title "refs.bib" None
              (world_with [knuth] offline quiet_disk)
              (snd (check_bibtex_file "refs.bib" None (world_with [knuth] offline quiet_disk)))
              [knuth] (batch_results offline 0 1 [knuth])
              0%nat knuth r eq_refl)
    as [Hid Htitle].
  - vm_compute. reflexivity.
  - reflexivity.
  - reflexivity.
  - split; [exact (Hid _ eq_refl)|]. exact (Htitle _ eq_refl).
Defined.

(** X10. A positive count is never made up: the classifier reports K > 0
    results only for a status-200 response whose body parses into a page with
    exactly K result blocks and without the no-results marker. *)
Theorem X10_positive_count_sound (q : string) (w w' : World) (n : Z) (err : string) :
  search_google_scholar q w = (inr (true, n, err), w') ->
  0 < n ->
  exists soup,
    scholar w (length (requested w)) (scholar_url q) = inr (ok_page soup) /\
    n = len (result_blocks soup) /\ ~ no_results_marker soup.
Proof.
  rewrite search_google_scholar_run. intros Hrun Hpos. injection Hrun as Hc _.
  destruct (scholar w (length (requested w)) (scholar_url q)) as [[d|d]|[code body]];
    cbn [classify status_code content] in Hc; try discriminate Hc.
  destruct (code =? 429); [discriminate Hc|].
  destruct (code =? 200) eqn:E200; cbn [negb] in Hc; [|discriminate Hc].
  apply Z.eqb_eq in E200. subst code.
  destruct body as [d|soup]; [discriminate Hc|].
  exists soup. split; [reflexivity|].
  unfold classify_page in Hc.
  destruct (found_one (find_string soup "div" no_results_phrase)) eqn:F; cbn [orb] in Hc.
  - injection Hc as <- _. lia.
  - destruct (len (result_blocks soup) =? 0); injection Hc as <- _; [lia|].
    split; [reflexivity|]. intros Hm. apply found_one_marker in Hm. congruence.
Qed.

Lemma X10_witness :
  exists soup,
    serving (ok_page page_hit_and_text) 0%nat (scholar_url "q") = inr (ok_page soup) /\
    1 = len (result_blocks soup) /\ ~ no_results_marker soup.
Proof.
  refine (X10_positive_count_sound "q"
            (world_with [] (serving (ok_page page_hit_and_text)) quiet_disk)
            (after_lookup "q" (world_with [] (serving (ok_page page_hit_and_text)) quiet_disk))
            1 EmptyString _ _).
  - vm_compute. reflexivity.
  - lia.
Defined.

(* ================================================================== *)
(** ** Further properties of the report writer *)

Lemma bind_assoc_at {A B C} (m : M A) (f : A -> M B) (g : B -> M C) (w : World) :
  bind (bind m f) g w = bind m (fun x => bind (f x) g) w.
Proof. unfold bind. destruct (m w) as [[e|a] w1]; reflexivity. Qed.

Lemma bind_ext {A B} (m : M A) (f g : A -> M B) :
  (forall a w, f a w = g a w) -> forall w, bind m f w = bind m g w.
Proof. intros H w. unfold bind. destruct (m w) as [[e|a] w1]; [reflexivity | apply H]. Qed.

Lemma bind_ext_l {A B} (m m' : M A) (k : A -> M B) :
  (forall w, m w = m' w) -> forall w, bind m k w = bind m' k w.
Proof. intros H w. unfold bind. rewrite H. reflexivity. Qed.

Lemma bind_ret_unit (m : M unit) (w : World) : bind m (fun _ => ret tt) w = m w.
Proof. unfold bind, ret. destruct (m w) as [[e|[]] w1]; reflexivity. Qed.

Lemma for_each_app_at {A} (l1 l2 : list A) (g : A -> M unit) (w : World) :
  for_each (l1 ++ l2) g w = bind (for_each l1 g) (fun _ => for_each l2 g) w.
Proof.
  revert w. induction l1 as [|x l1 IH]; intros w; [reflexivity|].
  cbn [app for_each]. rewrite bind_assoc_at. apply bind_ext. intros _ w1. apply IH.
Qed.

Lemma for_each_flat_map_at {A B} (f : A -> list B) (l : list A) (g : B -> M unit) (w : World) :
  for_each (flat_map f l) g w = for_each l (fun x => for_each (f x) g) w.
Proof.
  revert w. induction l as [|x l IH]; intros w; [reflexivity|].
  cbn [flat_map for_each]. rewrite for_each_app_at. apply bind_ext. intros _ w1. apply IH.
Qed.

(** The body of [save_results] opens the file, writes the pieces of the report
    in order, and prints where it saved them. *)
Lemma save_results_body_chunks (results : list CheckResult) (out : string) (w : World) :
  save_results_body results out w
  = (open_w out >> write_all out (report_chunks results) >>
     print (newline +:+ "Results saved to: " +:+ out)) w.
Proof.
  unfold save_results_body, write_all, report_chunks. cbv zeta.
  apply bind_ext. intros _ w1. cbn [app for_each].
  rewrite bind_assoc_at. apply bind_ext. intros _ w2.
  rewrite bind_assoc_at. apply bind_ext. intros _ w3.
  rewrite bind_assoc_at. apply bind_ext. intros _ w4.
  apply bind_ext_l. intros w5.
  rewrite for_each_flat_map_at. clear.
  revert w5. induction results as [|r rs IH]; intros w; [reflexivity|].
  assert (forall (k : unit -> M unit) w0,
            bind (if success r
                  then write out ("Status: " +:+ (if found r then "FOUND" else "NOT FOUND")
                                  +:+ " (" +:+ str_int (num_results r) +:+ " results)"
                                  +:+ newline)
                  else write out ("Status: ERROR - " +:+ error r +:+ newline)) k w0
            = bind (write out (status_line r)) k w0) as Hstatus.
  { intros k w0. unfold status_line. destruct (success r); reflexivity. }
  cbn [for_each]. unfold entry_block at 1. cbn [for_each].
  rewrite !bind_assoc_at. apply bind_ext. intros _ w1.
  rewrite !bind_assoc_at. apply bind_ext. intros _ w2.
  rewrite !bind_assoc_at. apply bind_ext. intros _ w3.
  rewrite !bind_assoc_at, Hstatus. apply bind_ext. intros _ w4.
  rewrite !bind_assoc_at. apply bind_ext. intros _ w5.
  apply IH.
Qed.

Lemma concat_str_app (l1 l2 : list string) :
  concat_str (l1 ++ l2) = concat_str l1 +:+ concat_str l2.
Proof.
  induction l1 as [|x l1 IH]; [reflexivity|].
  unfold concat_str in *. cbn [app fold_right]. rewrite IH, str_app_assoc. reflexivity.
Qed.

(** Writing pieces to a file that exists: the pieces written before the first
    failing operation, and only they, are appended, in order. *)
Lemma write_all_run (out : string) (chunks : list string) :
  forall (w : World) (c : string),
    files w !! out = Some c ->
    exists (k : nat) (r : exn + unit) (w' : World),
      write_all out chunks w = (r, w') /\
      files w' = <[out := c +:+ concat_str (take k chunks)]> (files w) /\
      stdout w' = stdout w /\ disk_fault w' = disk_fault w /\
      (forall j, (j < k)%nat -> disk_fault w (disk_ops w + j)%nat = None) /\
      ((r = inr tt /\ k = length chunks) \/
       (exists d, r = inl (Exception d) /\ (k < length chunks)%nat /\
                  disk_fault w (disk_ops w + k)%nat = Some d)).
Proof.
  induction chunks as [|x rest IH]; intros w c Hc.
  - exists 0%nat, (inr tt), w. split; [reflexivity|].
    split; [cbn; rewrite str_app_nil_r, insert_id by exact Hc; reflexivity|].
    repeat split; [intros j Hj; lia | left; split; reflexivity].
  - unfold write_all. cbn [for_each]. unfold bind, write at 1, disk_op.
    destruct (disk_fault w (disk_ops w)) as [d|] eqn:F.
    + exists 0%nat, (inl (Exception d)), (set_disk (S (disk_ops w)) (files w) w).
      split; [reflexivity|].
      split; [cbn; rewrite str_app_nil_r, insert_id by exact Hc; reflexivity|].
      repeat split; [intros j Hj; lia|].
      right. exists d. rewrite Nat.add_0_r. repeat split; [cbn [length]; lia | exact F].
    + rewrite Hc. cbn [default].
      set (w1 := set_disk (S (disk_ops w)) (<[out := c +:+ x]> (files w)) w).
      destruct (IH w1 (c +:+ x)) as (k & r & w' & Hrun & Hfiles & Hout & Hfault & Hnone & Hend).
      { subst w1. cbn [files set_disk]. apply lookup_insert_eq. }
      exists (S k), r, w'. split; [exact Hrun|].
      split.
      { rewrite Hfiles. subst w1. cbn [files set_disk take concat_str fold_right].
        rewrite insert_insert_eq, str_app_assoc. reflexivity. }
      split; [exact Hout|]. split; [exact Hfault|].
      split.
      { intros [|j] Hj; [rewrite Nat.add_0_r; exact F|].
        specialize (Hnone j ltac:(lia)). subst w1. cbn [disk_fault disk_ops set_disk] in Hnone.
        replace (disk_ops w + S j)%nat with (S (disk_ops w) + j)%nat by lia. exact Hnone. }
      destruct Hend as [[-> ->]|(d & -> & Hk & Hd)].
      * left. split; reflexivity.
      * right. exists d. split; [reflexivity|]. split; [cbn [length]; lia|].
        subst w1. cbn [disk_fault disk_ops set_disk] in Hd.
        replace (disk_ops w + S k)%nat with (S (disk_ops w) + k)%nat by lia. exact Hd.
Qed.

(** What [save_results] does, by the first file operation that fails: none
    (the report is written in full and announced), the opening (no file is
    changed), or a later one (the pieces written so far are in the file); a
    failure is printed. *)
Lemma save_results_run (results : list CheckResult) (out : string) (w : World) :
  exists w',
    save_results results out w = (inr tt, w') /\
    (forall p, p <> out -> files w' !! p = files w !! p) /\
    ((files w' !! out = Some (report_text results) /\
      stdout w' = stdout w ++ [newline +:+ "Results saved to: " +:+ out] /\
      (forall j, (j <= length (report_chunks results))%nat ->
                 disk_fault w (disk_ops w + j)%nat = None)) \/
     (exists d j,
        disk_fault w (disk_ops w + j)%nat = Some d /\
        (forall i, (i < j)%nat -> disk_fault w (disk_ops w + i)%nat = None) /\
        stdout w' = stdout w ++ ["Error saving results: " +:+ d] /\
        match j with
        | O => files w' = files w
        | S k => (k < length (report_chunks results))%nat /\
                 files w' !! out = Some (concat_str (take k (report_chunks results)))
        end)).
Proof.
  unfold save_results, try_except. rewrite save_results_body_chunks.
  unfold bind at 1, open_w, disk_op.
  destruct (disk_fault w (disk_ops w)) as [d|] eqn:F.
  - rewrite print_run. eexists. split; [reflexivity|]. split; [reflexivity|].
    right. exists d, 0%nat. rewrite Nat.add_0_r.
    repeat split; [exact F | intros i Hi; lia].
  - set (w1 := set_disk (S (disk_ops w)) (<[out := EmptyString]> (files w)) w).
    destruct (write_all_run out (report_chunks results) w1 EmptyString)
      as (k & r & w2 & Hrun & Hfiles & Hout & Hfault & Hnone & Hend).
    { subst w1. cbn [files set_disk]. apply lookup_insert_eq. }
    assert (forall i, (i < S k)%nat -> disk_fault w (disk_ops w + i)%nat = None) as Hnone'.
    { intros [|i] Hi; [rewrite Nat.add_0_r; exact F|].
      specialize (Hnone i ltac:(lia)). subst w1. cbn [disk_fault disk_ops set_disk] in Hnone.
      replace (disk_ops w + S i)%nat with (S (disk_ops w) + i)%nat by lia. exact Hnone. }
    assert (files w2 = <[out := concat_str (take k (report_chunks results))]> (files w))
      as Hfiles'.
    { rewrite Hfiles. subst w1. cbn [files set_disk].
      rewrite insert_insert_eq, str_app_nil_l. reflexivity. }
    unfold bind. rewrite Hrun.
    destruct Hend as [[-> ->]|(d & -> & Hk & Hd)].
    + rewrite print_run. eexists. split; [reflexivity|]. cbn [files stdout set_stdout].
      split; [intros p Hp; rewrite Hfiles', lookup_insert_ne by congruence; reflexivity|].
      left. rewrite Hfiles', lookup_insert_eq, firstn_all, Hout.
      repeat split. intros j Hj. apply Hnone'. lia.
    + rewrite print_run. eexists. split; [reflexivity|].
      cbn [files stdout set_stdout str_exn].
      split; [intros p Hp; rewrite Hfiles', lookup_insert_ne by congruence; reflexivity|].
      right. exists d, (S k). split.
      { subst w1. cbn [disk_fault disk_ops set_disk] in Hd.
        replace (disk_ops w + S k)%nat with (S (disk_ops w) + k)%nat by lia. exact Hd. }
      split; [exact Hnone'|]. split; [rewrite Hout; reflexivity|].
      split; [exact Hk|]. rewrite Hfiles'. apply lookup_insert_eq.
Qed.

(** X11. On a disk without faults and a console that prints the status marks,
    a run with an output file leaves in that file exactly the text of the
    report of the results it returns, whatever the file held before, changes
    no other file, and ends its progress output with the line that announces
    the report. *)
Theorem X11_report_written
    (path out : string) (w : World) (entries : list (gmap string string)) :
  bibtex_files w path = inr entries ->
  is_empty out = false ->
  (forall n, disk_fault w n = None) ->
  stdout_unicode w = true ->
  exists results w',
    check_bibtex_file path (Some out) w = (inr results, w') /\
    files w' !! out = Some (report_text results) /\
    (forall p, p <> out -> files w' !! p = files w !! p) /\
    List.last (stdout w') EmptyString = newline +:+ "Results saved to: " +:+ out.
Proof.
  intros Hload Hout Hquiet Hconsole.
  destruct (check_bibtex_file_returns path (Some out) w entries Hload (or_introl Hconsole))
    as (w1 & w' & (_ & _ & Hfault & _ & Hfiles) & _ & _ & Hper & Hrun).
  cbn [persist] in Hper. rewrite Hout in Hper. cbn [negb] in Hper.
  destruct (save_results_run (batch_results (scholar w) (length (requested w)) 1 entries)
              out w1) as (w2 & Hsave & Hother & Hcase).
  rewrite Hsave in Hper. injection Hper as <-.
  eexists. exists w2. split; [exact Hrun|].
  destruct Hcase as [(Hfile & Hstd & _)|(d & j & Hd & _)].
  - split; [exact Hfile|]. split; [intros p Hp; rewrite Hother, Hfiles by exact Hp; reflexivity|].
    rewrite Hstd. apply (List.last_last (A := text)).
  - rewrite Hfault, Hquiet in Hd. discriminate Hd.
Qed.

Lemma X11_witness :
  exists results w',
    check_bibtex_file "refs.bib" (Some "report.txt")
      (world_with [vaswani; smith] (serving (ok_page page_hit_and_text)) quiet_disk)
    = (inr results, w') /\
    files w' !! "report.txt" = Some (report_text results) /\
    List.last (stdout w') EmptyString = newline +:+ "Results saved to: " +:+ "report.txt".
Proof.
  destruct (X11_report_written "refs.bib" "report.txt"
              (world_with [vaswani; smith] (serving (ok_page page_hit_and_text)) quiet_disk)
              [vaswani; smith] eq_refl eq_refl (fun _ => eq_refl) eq_refl)
    as (results & w' & Hrun & Hfile & _ & Hlast).
  exists results, w'. auto.
Defined.



(* ================================================================== *)
(** ** Further properties of the summary *)

(** The loop of the listing prints the line of each failed record, in order. *)
Lemma list_errors_run (results : list CheckResult) :
  forall w, exists w',
    for_each results (fun result =>
       if negb (success result)
       then print ("  - " +:+ entry_id result +:+ ": " +:+ error result)
       else ret tt) w = (inr tt, w') /\
    stdout w' = stdout w ++
                List.map error_line (List.filter (fun r => negb (success r)) results) /\
    requested w' = requested w /\ pauses w' = pauses w /\
    files w' = files w /\ disk_ops w' = disk_ops w.
Proof.
  induction results as [|r rs IH]; intros w.
  - exists w. cbn. rewrite List.app_nil_r. repeat split.
  - cbn [for_each List.filter]. destruct (negb (success r)).
    + rewrite bind_print. destruct (IH (set_stdout (fun o => o ++ [error_line r]) w))
        as (w' & Hrun & Hout & Hrest).
      exists w'. split; [exact Hrun|]. split; [|exact Hrest].
      rewrite Hout. cbn [stdout set_stdout List.map]. rewrite <- List.app_assoc. reflexivity.
    + destruct (IH w) as (w' & Hrun & Hrest). exists w'. split; [exact Hrun | exact Hrest].
Qed.

Lemma count_if_failed_pos (results : list CheckResult) :
  (0 <? count_if (fun r => negb (success r)) results)
  = match List.filter (fun r => negb (success r)) results with [] => false | _ => true end.
Proof.
  unfold count_if, len. destruct (List.filter _ results); [reflexivity|].
  cbn [length]. apply Z.ltb_lt. lia.
Qed.

(** What [print_summary] does to the world. *)
Lemma print_summary_run (results : list CheckResult) (w : World) :
  exists w',
    print_summary results w = (inr tt, w') /\
    stdout w' = stdout w ++ summary_lines results ++ error_listing results /\
    requested w' = requested w /\ pauses w' = pauses w /\
    files w' = files w /\ disk_ops w' = disk_ops w.
Proof.
  unfold print_summary. cbv zeta. rewrite !bind_print, rate_line_run.
  rewrite count_if_failed_pos. unfold error_listing, summary_lines. cbv zeta.
  destruct (List.filter (fun r => negb (success r)) results) as [|f fs] eqn:Hf.
  - eexists. split; [reflexivity|]. cbn [stdout requested pauses files disk_ops set_stdout].
    rewrite List.app_nil_r, <- !List.app_assoc. repeat split.
  - rewrite bind_print.
    match goal with |- context [for_each results _ ?w0] =>
      destruct (list_errors_run results w0) as (w' & Hrun & Hout & Hrest)
    end.
    exists w'. split; [exact Hrun|]. split; [|exact Hrest].
    rewrite Hout, Hf. cbn [stdout set_stdout]. rewrite <- !List.app_assoc. reflexivity.
Qed.

(** X13. The summary prints its eight lines and then the listing of errors:
    nothing more when every lookup succeeded, and otherwise a heading followed
    by one line per failed record, in the order of the records, holding its
    identifier and its error message. It sends no request and touches no
    file. *)
Theorem X13_summary_console (results : list CheckResult) (w : World) :
  (exists w',
     print_summary results w = (inr tt, w') /\
     stdout w' = stdout w ++ summary_lines results ++ error_listing results /\
     requested w' = requested w /\ files w' = files w /\ disk_ops w' = disk_ops w) /\
  length (summary_lines results) = 8%nat /\
  (Forall (fun r => success r = true) results -> error_listing results = []) /\
  (forall r, In r results -> success r = false ->
     In ("  - " +:+ entry_id r +:+ ": " +:+ error r) (error_listing results)) /\
  length (error_listing results)
  = (if 0 <? count_if (fun r => negb (success r)) results
     then S (Z.to_nat (count_if (fun r => negb (success r)) results)) else 0%nat).
Proof.
  split; [|split; [reflexivity|split; [|split]]].
  - destruct (print_summary_run results w) as (w' & Hrun & Hout & Hr & _ & Hf & Hd).
    exists w'. auto.
  - intros Hall. unfold error_listing.
    replace (List.filter (fun r => negb (success r)) results) with (@nil CheckResult);
      [reflexivity|].
    symmetry. induction Hall as [|r rs Hr _ IH]; [reflexivity|].
    cbn [List.filter]. rewrite Hr. exact IH.
  - intros r Hin Hfail. unfold error_listing.
    assert (In r (List.filter (fun r => negb (success r)) results)) as Hin'.
    { apply List.filter_In. split; [exact Hin | rewrite Hfail; reflexivity]. }
    destruct (List.filter _ results) as [|f fs]; [destruct Hin'|].
    right. apply (List.in_map error_line) in Hin'. exact Hin'.
  - rewrite count_if_failed_pos. unfold error_listing, count_if, len.
    destruct (List.filter _ results) as [|f fs]; [reflexivity|].
    cbn [length]. rewrite length_map, Nat2Z.id. reflexivity.
Qed.

Lemma X13_witness :
  let results := batch_results offline 0 1 [vaswani; smith] in
  In ("  - " +:+ "entry_2" +:+ ": " +:+ "Network error: Connection refused")
     (error_listing results).
Proof.
  intros results.
  destruct (X13_summary_console results (world_with [] offline quiet_disk))
    as (_ & _ & _ & Hline & _).
  apply (Hline (result_of 2 smith (offline 1%nat (scholar_url (build_search_query smith))))).
  - right. left. reflexivity.
  - reflexivity.
Defined.

Lemma count_if_ext_Forall {A} (p q : A -> bool) (P : A -> Prop) (l : list A) :
  (forall x, P x -> p x = q x) -> Forall P l -> count_if p l = count_if q l.
Proof.
  intros Hpq Hl. induction Hl as [|x l Hx _ IH]; [reflexivity|].
  rewrite !count_if_cons, IH, (Hpq x Hx). reflexivity.
Qed.

Lemma count_if_bounds {A} (p : A -> bool) (l : list A) :
  0 <= count_if p l <= len l.
Proof.
  induction l as [|x l IH]; [unfold count_if, len; cbn; lia|].
  rewrite count_if_cons. unfold len in *. cbn [length]. rewrite Nat2Z.inj_succ.
  destruct (p x); lia.
Qed.

Lemma result_of_not_found i e o :
  let r := result_of i e o in
  (found r = true -> success r = true) /\
  (success r = true -> negb (found r) = (num_results r =? 0)).
Proof.
  pose proof (classify_error_iff o) as H. unfold result_of.
  destruct (classify o) as [[s n] err]. destruct H as (_ & Hn & _). cbn.
  destruct s; cbn; [|split; [discriminate | discriminate]].
  split; [reflexivity|]. intros _.
  destruct (0 <? n) eqn:E1, (n =? 0) eqn:E2; try reflexivity; lia.
Qed.

(** X14. For the results of a run the counts of the summary add up: the found
    count and the error count are between 0 and the total and never overlap,
    and the not-found count, total minus found minus errors, is the number of
    lookups that succeeded with zero results, so it is never negative; the
    total is the number of entries of the file. *)
Theorem X14_summary_of_a_run
    (path : string) (output_file : option string) (w w' : World)
    (results : list CheckResult) :
  check_bibtex_file path output_file w = (inr results, w') ->
  let total := len results in
  let found_count := count_if found results in
  let errors := count_if (fun r => negb (success r)) results in
  0 <= found_count /\ 0 <= errors /\ found_count + errors <= total /\
  total - found_count - errors
  = count_if (fun r => success r && (num_results r =? 0)) results /\
  (forall entries, bibtex_files w path = inr entries -> total = len entries).
Proof.
  intros Hrun total found_count errors.
  assert (Forall (fun r => (found r = true -> success r = true) /\
                           (success r = true -> negb (found r) = (num_results r =? 0)))
                 results) as Hinv.
  { destruct (check_bibtex_file_results _ _ _ _ _ Hrun) as [->|(entries & _ & ->)];
      [constructor|].
    apply batch_results_Forall. intros i e n url. apply result_of_not_found. }
  assert (total - found_count - errors
          = count_if (fun r => success r && (num_results r =? 0)) results) as Hnf.
  { subst total found_count errors. rewrite not_found_count.
    - eapply count_if_ext_Forall; [|exact Hinv].
      intros r [_ Hr]. cbv beta. destruct (success r); [|reflexivity].
      rewrite (Hr eq_refl). reflexivity.
    - eapply List.Forall_impl; [|exact Hinv]. intros r [H _]. exact H. }
  pose proof (count_if_bounds found results).
  pose proof (count_if_bounds (fun r => negb (success r)) results).
  pose proof (count_if_bounds (fun r => success r && (num_results r =? 0)) results).
  split; [subst found_count; lia|]. split; [subst errors; lia|].
  split; [lia|]. split; [exact Hnf|].
  intros entries Hload.
  destruct (check_bibtex_file_returned path output_file w entries results w' Hload Hrun)
    as (Hres & _).
  subst total. rewrite Hres. unfold len. rewrite batch_results_length. reflexivity.
Qed.

Lemma X14_witness :
  let results := batch_results offline 0 1 [vaswani; smith] in
  len results - count_if found results - count_if (fun r => negb (success r)) results
  = count_if (fun r => success r && (num_results r =? 0)) results /\
  len results = 2.
Proof.
  intros results.
  destruct (X14_summary_of_a_run "refs.bib" None
              (world_with [vaswani; smith] offline quiet_disk)
              (snd (check_bibtex_file "refs.bib" None
                      (world_with [vaswani; smith] offline quiet_disk)))
              results)
    as (_ & _ & _ & Hnf & Hlen).
  - vm_compute. reflexivity.
  - split; [exact Hnf | exact (Hlen [vaswani; smith] eq_refl)].
Defined.

(* ================================================================== *)
(** ** Further properties of the URL of a query *)

(** The encoding of one character. *)
Lemma quote_plus_cons (c : ascii) (s : string) :
  quote_plus (String c s)
  = (if is_unreserved c then String c EmptyString
     else if Ascii.eqb c space then "+"
     else percent_encode c) +:+ quote_plus s.
Proof. reflexivity. Qed.

Lemma decode_first_encode (c : ascii) (rest : string) :
  decode_first ((if is_unreserved c then String c EmptyString
                 else if Ascii.eqb c space then "+"
                 else percent_encode c) +:+ rest) = Some (c, rest).
Proof. destruct c as [[] [] [] [] [] [] [] []]; vm_compute; reflexivity. Qed.

Lemma encode_url_chars (c : ascii) :
  forallb url_char
          (chars (if is_unreserved c then String c EmptyString
                  else if Ascii.eqb c space then "+"
                  else percent_encode c)) = true.
Proof. destruct c as [[] [] [] [] [] [] [] []]; vm_compute; reflexivity. Qed.

Lemma quote_plus_url_chars (s : string) : forallb url_char (chars (quote_plus s)) = true.
Proof.
  induction s as [|c s IH]; [reflexivity|].
  rewrite quote_plus_cons, chars_app, forallb_app, encode_url_chars, IH. reflexivity.
Qed.

Lemma quote_plus_injective (s t : string) : quote_plus s = quote_plus t -> s = t.
Proof.
  revert t. induction s as [|c s IH]; intros [|d t] H.
  - reflexivity.
  - apply (f_equal decode_first) in H. rewrite quote_plus_cons, decode_first_encode in H.
    discriminate H.
  - apply (f_equal decode_first) in H. rewrite quote_plus_cons, decode_first_encode in H.
    discriminate H.
  - apply (f_equal decode_first) in H.
    rewrite !quote_plus_cons, !decode_first_encode in H.
    injection H as -> H. rewrite (IH t H). reflexivity.
Qed.

Lemma str_app_inj_l (p s t : string) : p +:+ s = p +:+ t -> s = t.
Proof.
  induction p as [|c p IH]; [trivial|].
  rewrite !str_app_cons. intros H. injection H as H. exact (IH H).
Qed.

(** X16. The URL of a query is made of characters that may stand in a URL:
    ASCII letters and digits, the marks - . _ ~ of the unreserved set, the
    plus sign and the percent sign of the encoding, after the fixed address of
    the search page. Two different queries never get the same URL. *)
Theorem X16_scholar_url_faithful (q : string) :
  (exists encoded,
     scholar_url q = "https://scholar.google.com/scholar?q=" +:+ encoded /\
     Forall (fun c => url_char c = true) (chars encoded)) /\
  (forall q', scholar_url q = scholar_url q' -> q = q').
Proof.
  split.
  - exists (quote_plus q). split; [reflexivity|].
    apply List.Forall_forall. apply List.forallb_forall, quote_plus_url_chars.
  - intros q' H. unfold scholar_url in H.
    apply str_app_inj_l in H. apply quote_plus_injective, H.
Qed.

Lemma X16_witness :
  (exists encoded,
     scholar_url "a b/c" = "https://scholar.google.com/scholar?q=" +:+ encoded /\
     Forall (fun c => url_char c = true) (chars encoded)) /\
  "a b/c" = "a b/c".
Proof.
  destruct (X16_scholar_url_faithful "a b/c") as [Hsafe Hinj].
  split; [exact Hsafe | exact (Hinj "a b/c" eq_refl)].
Defined.

(* ================================================================== *)
(** ** Further properties of the progress output *)

Lemma progress_from_length (total i : Z) (results : list CheckResult) :
  length (progress_from total i results) = (4 * length results)%nat.
Proof.
  revert i. induction results as [|r rs IH]; intros i; [reflexivity|].
  cbn [progress_from]. rewrite length_app, IH. cbn [length progress_lines]. lia.
Qed.

(** X17. On a console that prints the status marks, a run on a file that
    loads prints its two opening lines and then, for each record in order,
    four lines: the position of the record out of the total with its
    identifier, its title, its query, and its status, which shows the mark
    and the number of results, or the error message; after them comes at most
    one line, about the report, and none without an output file. *)
Theorem X17_progress_output
    (path : string) (output_file : option string) (w : World)
    (entries : list (gmap string string)) :
  bibtex_files w path = inr entries ->
  stdout_unicode w = true ->
  exists results w' tail,
    check_bibtex_file path output_file w = (inr results, w') /\
    stdout w' = stdout w ++
                [ "Loading BibTeX file: " +:+ path;
                  "Found " +:+ str_int (len entries) +:+ " entries to check" ] ++
                progress_from (len entries) 1 results ++ tail /\
    length (progress_from (len entries) 1 results) = (4 * length entries)%nat /\
    (length tail <= 1)%nat /\
    (output_file = None -> tail = []).
Proof.
  intros Hload Hconsole.
  destruct (check_bibtex_file_returns path output_file w entries Hload (or_introl Hconsole))
    as (w1 & w' & _ & _ & Hout & Hper & Hrun).
  cbn [stdout loop_start set_stdout] in Hout.
  set (results := batch_results (scholar w) (length (requested w)) 1 entries) in *.
  assert (exists tail : list text,
            stdout w' = stdout w1 ++ tail /\ (length tail <= 1)%nat /\
            (output_file = None -> tail = [])) as (tail & Htail & Hlen & Hnone).
  { destruct output_file as [out|]; cbn [persist] in Hper.
    - destruct (negb (is_empty out)).
      + destruct (save_results_run results out w1) as (w2 & Hsave & _ & Hcase).
        rewrite Hsave in Hper. injection Hper as <-.
        destruct Hcase as [(_ & Hstd & _)|(d & j & _ & _ & Hstd & _)];
          eexists; (split; [exact Hstd|]); (split; [cbn; lia | discriminate]).
      + injection Hper as <-. exists []. rewrite List.app_nil_r.
        split; [reflexivity|]. split; [cbn; lia | discriminate].
    - injection Hper as <-. exists []. rewrite List.app_nil_r.
      split; [reflexivity|]. split; [cbn; lia | reflexivity]. }
  exists results, w', tail. split; [exact Hrun|].
  split; [rewrite Htail, Hout, <- !List.app_assoc; reflexivity|].
  split; [|split; assumption].
  rewrite progress_from_length. subst results. rewrite batch_results_length. reflexivity.
Qed.

Lemma X17_witness :
  exists results w',
    check_bibtex_file "refs.bib" None
      (world_with [vaswani; smith] (serving (ok_page page_hit_and_text)) quiet_disk)
    = (inr results, w') /\
    stdout w' = [ "Loading BibTeX file: " +:+ "refs.bib";
                  "Found " +:+ str_int 2 +:+ " entries to check" ] ++
                progress_from 2 1 results /\
    length (stdout w') = 10%nat /\
    stdout w' !! 5%nat = Some (wide "Status: " ++ [check_mark] ++ wide " FOUND (1 results)").
Proof.
  destruct (X17_progress_output "refs.bib" None
              (world_with [vaswani; smith] (serving (ok_page page_hit_and_text)) quiet_disk)
              [vaswani; smith] eq_refl eq_refl)
    as (results & w' & tail & Hrun & Hout & Hlen & _ & Hnone).
  rewrite (Hnone eq_refl), List.app_nil_r in Hout. cbn [stdout world_with app] in Hout.
  exists results, w'. split; [exact Hrun|]. split; [exact Hout|].
  split; [rewrite Hout; cbn [length]; rewrite Hlen; reflexivity|].
  assert (Hw : w' = snd (check_bibtex_file "refs.bib" None
                           (world_with [vaswani; smith]
                              (serving (ok_page page_hit_and_text)) quiet_disk)))
    by (rewrite Hrun; reflexivity).
  rewrite Hw. vm_compute. reflexivity.
Defined.


